(** * mn-pulse-alpha: the dashboard's data transformations (src/app.js)

    A shallow embedding of the filter, normalisation and aggregation code of
    [app.js], with the properties of its specification.

    Conventions of the embedding.
    - A JavaScript number that carries a metric value is modelled twice.
      The properties that no rounding can touch (which points are kept, in
      which order and under which dates, the value 50 of a series without
      range, a sum of one term) are stated with exact rationals ([Q]), [===]
      being [Qeq_bool].  The properties on which rounding or overflow bears
      (the scaling to 0..100, a sum of several terms) are stated in the
      module [B64] with IEEE 754 binary64 numbers, the primitive [float].
    - A number that is an integer or [NaN] (a month, a year, a time value, the
      result of the sort comparator) is an [option Z], [None] being [NaN].
    - What ECMA-262 leaves to the host (how [Date.parse] reads a string, the
      local time zone) is the class [Host]; what it fixes (the calendar
      arithmetic of time values, the order of [Object.keys], the stability of
      [Array.prototype.sort]) is defined here.
    - The closure variables [allData], [chartInstances], [summaryChart] and
      [aggregateChart] are the record [AppState], passed explicitly. *)

From Stdlib Require Import ZArith QArith Qminmax Bool List String Ascii Lia Lqa.
From Stdlib Require Import DecimalString DecimalZ Permutation Sorted Morphisms Setoid.
From Stdlib Require Import Floats.
Import ListNotations.

Local Open Scope string_scope.
Local Open Scope list_scope.
Local Open Scope Z_scope.

(* ------------------------------------------------------------------ *)
(** ** Numbers and strings of the language *)

(** [Number.prototype.toString] on an integer or [NaN]. *)
Definition Number_toString (n : option Z) : string :=
  match n with
  | Some z => NilZero.string_of_int (Z.to_int z)
  | None => "NaN"
  end.

(** [a === b] on two numbers that are integers or [NaN]: [NaN] equals
    nothing, itself included. *)
Definition strict_eq (a b : option Z) : bool :=
  match a, b with
  | Some m, Some n => m =? n
  | _, _ => false
  end.

Definition digit_of_ascii (c : ascii) : option Z :=
  let n := Z.of_nat (nat_of_ascii c) in
  if (48 <=? n) && (n <=? 57) then Some (n - 48) else None.

Fixpoint digits_value (acc : Z) (s : string) : option Z :=
  match s with
  | EmptyString => Some acc
  | String c rest =>
      match digit_of_ascii c with
      | Some d => digits_value (10 * acc + d) rest
      | None => None
      end
  end.

(** [Number(s)] for the strings the month selector holds: a run of decimal
    digits is its value, the empty string is 0, and a string with any other
    character is [NaN].  (Signs, fractions, exponents, radix prefixes and
    surrounding blanks, which [Number] also reads, do not occur in the
    selector's options and are [NaN] here.) *)
Definition Number_ (s : string) : option Z := digits_value 0 s.

(** [s.split(sep)] for a one-character separator. *)
Fixpoint split (sep : ascii) (s : string) : list string :=
  match s with
  | EmptyString => [EmptyString]
  | String c rest =>
      if Ascii.eqb c sep then EmptyString :: split sep rest
      else match split sep rest with
           | [] => [String c EmptyString]
           | w :: ws => String c w :: ws
           end
  end.

Fixpoint prefixb (p s : string) : bool :=
  match p, s with
  | EmptyString, _ => true
  | String a p', String b s' => Ascii.eqb a b && prefixb p' s'
  | String _ _, EmptyString => false
  end.

Fixpoint drop (n : nat) (s : string) : string :=
  match n, s with
  | O, _ => s
  | S n', String _ s' => drop n' s'
  | S _, EmptyString => EmptyString
  end.

(** [s.replace(pat, by)] with a string pattern: the first occurrence only. *)
Fixpoint replace (pat by_ s : string) : string :=
  if prefixb pat s then (by_ ++ drop (String.length pat) s)%string
  else match s with
       | EmptyString => EmptyString
       | String c rest => String c (replace pat by_ rest)
       end.

(* ------------------------------------------------------------------ *)
(** ** Dates (ECMA-262, Date objects) *)

Definition msPerDay : Z := 86400000.

Definition Day (t : Z) : Z := t / msPerDay.

Definition DaysInYear (y : Z) : Z :=
  if (y mod 4 =? 0) && (negb (y mod 100 =? 0) || (y mod 400 =? 0))
  then 366 else 365.

Definition DayFromYear (y : Z) : Z :=
  365 * (y - 1970) + (y - 1969) / 4 - (y - 1901) / 100 + (y - 1601) / 400.

Definition TimeFromYear (y : Z) : Z := msPerDay * DayFromYear y.

(** The largest [y] with [TimeFromYear y <= t] (see [YearFromTime_spec]):
    the mean Gregorian year gives a guess that is off by at most one. *)
Definition YearFromTime (t : Z) : Z :=
  let y := 1970 + (Day t * 400) / 146097 in
  if Day t <? DayFromYear y then y - 1
  else if DayFromYear (y + 1) <=? Day t then y + 1
  else y.

Definition InLeapYear (t : Z) : Z :=
  if DaysInYear (YearFromTime t) =? 366 then 1 else 0.

Definition DayWithinYear (t : Z) : Z := Day t - DayFromYear (YearFromTime t).

Definition MonthFromTime (t : Z) : Z :=
  let d := DayWithinYear t in
  let leap := InLeapYear t in
  if d <? 31 then 0
  else if d <? 59 + leap then 1
  else if d <? 90 + leap then 2
  else if d <? 120 + leap then 3
  else if d <? 151 + leap then 4
  else if d <? 181 + leap then 5
  else if d <? 212 + leap then 6
  else if d <? 243 + leap then 7
  else if d <? 273 + leap then 8
  else if d <? 304 + leap then 9
  else if d <? 334 + leap then 10
  else 11.

(** A time value is clipped to 8.64e15 ms either side of the epoch. *)
Definition TimeClip (t : option Z) : option Z :=
  match t with
  | Some v => if Z.abs v <=? 8640000000000000 then Some v else None
  | None => None
  end.

(** The host: [Date_parse] is [Date.parse] ([None] for a string it does not
    read as a date), [LocalTZA t] the offset of local time at UTC time [t],
    in milliseconds. *)
Class Host := {
  Date_parse : string -> option Z;
  LocalTZA : Z -> Z
}.

(** A Date object is its time value; [None] is the invalid date. *)
Definition Date := option Z.

Section DateObjects.
Context {host : Host}.

(** [new Date(s)] *)
Definition Date_new (s : string) : Date := TimeClip (Date_parse s).

Definition LocalTime (t : Z) : Z := t + LocalTZA t.

Definition getMonth (d : Date) : option Z :=
  option_map (fun t => MonthFromTime (LocalTime t)) d.

Definition getFullYear (d : Date) : option Z :=
  option_map (fun t => YearFromTime (LocalTime t)) d.

(** [a - b] on two Date objects: the difference of the time values. *)
Definition Date_sub (a b : Date) : option Z :=
  match a, b with
  | Some ta, Some tb => Some (ta - tb)
  | _, _ => None
  end.

(** app.js, getQuarter: [Math.floor(month / 3) + 1]. *)
Definition getQuarter (date : Date) : option Z :=
  let month := getMonth date in
  option_map (fun m => m / 3 + 1) month.
End DateObjects.

(* ------------------------------------------------------------------ *)
(** ** Objects used as maps, and arrays *)

(** The object [dateMap]: its own properties, in the order of creation.
    What [{}] inherits from [Object.prototype] is not represented: the keys
    are date strings, none of them taken to be the name of an inherited
    property. *)
Definition JSObject := list (string * Q).

(** [o[k]]; [None] is [undefined]. *)
Fixpoint obj_get (o : JSObject) (k : string) : option Q :=
  match o with
  | [] => None
  | (k', v) :: o' => if String.eqb k' k then Some v else obj_get o' k
  end.

(** [o[k] = v]: an existing property keeps its place, a new one comes last. *)
Fixpoint obj_set (o : JSObject) (k : string) (v : Q) : JSObject :=
  match o with
  | [] => [(k, v)]
  | (k', v') :: o' =>
      if String.eqb k' k then (k', v) :: o' else (k', v') :: obj_set o' k v
  end.

(** [v || 0] on a number or [undefined]: 0 and [undefined] are falsy. *)
Definition or_zero (v : option Q) : Q :=
  match v with
  | Some q => if Qeq_bool q 0 then 0%Q else q
  | None => 0%Q
  end.

(** A property key is an array index when it is the canonical decimal form
    of an integer below 2^32 - 1. *)
Definition array_index (k : string) : option Z :=
  match digits_value 0 k with
  | Some n =>
      if String.eqb (Number_toString (Some n)) k && (n <? 4294967295)
      then Some n else None
  | None => None
  end.

Definition is_array_index (k : string) : bool :=
  match array_index k with Some _ => true | None => false end.

Section ArraySort.
Context {A : Type} (comparefn : A -> A -> option Z).

(** [comparefn(a, b) > 0], a [NaN] result counting as +0. *)
Definition sorts_after (a b : A) : bool :=
  match comparefn a b with
  | Some v => 0 <? v
  | None => false
  end.

Fixpoint sort_insert (a : A) (l : list A) : list A :=
  match l with
  | [] => [a]
  | b :: l' => if sorts_after a b then b :: sort_insert a l' else a :: l
  end.

(** [Array.prototype.sort(comparefn)].  The standard asks for a stable
    sort and fixes the result when [comparefn] is a consistent comparator;
    insertion from the right is such a sort. *)
Definition Array_sort (l : list A) : list A := fold_right sort_insert [] l.
End ArraySort.

(** The own properties in the order [Object.keys] lists them: array indices
    first, by ascending value, then the other keys in the order of creation. *)
Definition Object_entries (o : JSObject) : list (string * Q) :=
  Array_sort
    (fun a b => match array_index (fst a), array_index (fst b) with
                | Some m, Some n => Some (m - n)
                | _, _ => None
                end)
    (filter (fun e => is_array_index (fst e)) o)
  ++ filter (fun e => negb (is_array_index (fst e))) o.

Definition Object_keys (o : JSObject) : list string := map fst (Object_entries o).

(** [Math.min(...values)] and [Math.max(...values)] for the non-empty list
    [v :: vs]. *)
Definition Math_min (v : Q) (vs : list Q) : Q := fold_left Qmin vs v.
Definition Math_max (v : Q) (vs : list Q) : Q := fold_left Qmax vs v.

(* ------------------------------------------------------------------ *)
(** ** The data model *)

Record DataPoint := { date : string; value : Q }.

Record MetricSeries := { label : string; color : string; data : list DataPoint }.

Module Event.
Record t := { label : string; startDate : string; endDate : string }.
End Event.

(** The loaded document, [data.json]. *)
Record Document := { datasets : list MetricSeries; events : list Event.t }.

(** What [formatDatasetsForChart] hands to an individual chart. *)
Module Raw.
Record Point := { x : string; y : Q }.
Record Series := {
  label : string;
  data : list Point;
  borderColor : string;
  backgroundColor : string;
  borderWidth : Z;
  tension : Q;
  fill : bool;
  spanGaps : bool
}.
End Raw.

(** What [normalizeAndFormatData] returns.  [color] is [None] when the
    object has no such property. *)
Module Norm.
Record Point := { x : string; y : Q; originalValue : Q }.
Record Series := { label : string; color : option string; data : list Point }.

(** The names of the properties of a result, in order. *)
Definition fields (s : Series) : list string :=
  match color s with
  | Some _ => ["label"; "color"; "data"]
  | None => ["label"; "data"]
  end.
End Norm.

(** A point of the aggregate series. *)
Module Agg.
Record Point := { x : string; y : Q }.
End Agg.

(** The values of the three selectors. *)
Record FilterState := {
  selectedYear : string;
  selectedQuarter : string;
  selectedMonth : string
}.

(** The variables of the closure that the handlers read and assign; a chart
    is represented by the datasets it holds. *)
Record AppState := {
  allData : Document;
  chartInstances : list (list Raw.Series);
  summaryChart : list Norm.Series;
  aggregateChart : list Agg.Point
}.

(* ------------------------------------------------------------------ *)
(** ** The charting functions of app.js *)

Definition formatDatasetsForChart (datasets : list MetricSeries) : list Raw.Series :=
  map (fun dataset =>
         {| Raw.label := label dataset;
            Raw.data := map (fun point => {| Raw.x := date point; Raw.y := value point |})
                            (data dataset);
            Raw.borderColor := color dataset;
            Raw.backgroundColor := replace "1)" "0.2" (color dataset);
            Raw.borderWidth := 2;
            Raw.tension := 1 # 10;
            Raw.fill := false;
            Raw.spanGaps := true |})
      datasets.

(** The function [normalizeAndFormatData] maps over the datasets. *)
Definition normalizeDataset (dataset : MetricSeries) : Norm.Series :=
  match data dataset with
  | [] =>
      (* { ...dataset, data: [] } *)
      {| Norm.label := label dataset;
         Norm.color := Some (color dataset);
         Norm.data := [] |}
  | p :: ps =>
      (* values = value p :: map value ps *)
      let min := Math_min (value p) (map value ps) in
      let max := Math_max (value p) (map value ps) in
      let range := (max - min)%Q in
      let normalizedData :=
        map (fun point =>
               let normalizedValue :=
                 if Qeq_bool range 0 then 50%Q
                 else ((value point - min) / range * 100)%Q in
               {| Norm.x := date point;
                  Norm.y := normalizedValue;
                  Norm.originalValue := value point |})
            (data dataset) in
      {| Norm.label := label dataset;
         Norm.color := None;
         Norm.data := normalizedData |}
  end.

Definition normalizeAndFormatData (datasets : list MetricSeries) : list Norm.Series :=
  map normalizeDataset datasets.

(** The body of the inner loop of [createAggregateData]:
    [dateMap[point.x] = (dateMap[point.x] || 0) + point.y]. *)
Definition addPoint (dateMap : JSObject) (point : Norm.Point) : JSObject :=
  obj_set dateMap (Norm.x point)
          (or_zero (obj_get dateMap (Norm.x point)) + Norm.y point)%Q.

(** The two [forEach] loops of [createAggregateData] that fill [dateMap]. *)
Definition fillDateMap (normalizedDatasets : list Norm.Series) : JSObject :=
  fold_left
    (fun dateMap dataset => fold_left addPoint (Norm.data dataset) dateMap)
    normalizedDatasets [].

Section App.
Context {host : Host}.

(** [Object.keys(dateMap).map(date => ({x: date, y: dateMap[date]}))] is
    taken over the entries: [dateMap[date]] is the value stored under the
    key (lemma [Object_entries_get]). *)
Definition createAggregateData (normalizedDatasets : list Norm.Series)
  : list Agg.Point :=
  let dateMap := fillDateMap normalizedDatasets in
  let aggregateData :=
    map (fun e => {| Agg.x := fst e; Agg.y := snd e |}) (Object_entries dateMap) in
  Array_sort (fun a b => Date_sub (Date_new (Agg.x a)) (Date_new (Agg.x b)))
             aggregateData.

(** Steps 1 to 3 of the loop body of [handleFilterChange]. *)
Definition filterData (sel : FilterState) (originalDataset : MetricSeries)
  : list DataPoint :=
  let filteredData := data originalDataset in
  let filteredData :=
    if negb (selectedYear sel =? "all")%string then
      filter (fun point =>
                (Number_toString (getFullYear (Date_new (date point)))
                 =? selectedYear sel)%string)
             filteredData
    else filteredData in
  let filteredData :=
    if negb (selectedQuarter sel =? "all")%string then
      filter (fun point =>
                let d := Date_new (date point) in
                let q := getQuarter d in
                (Number_toString q =? selectedQuarter sel)%string)
             filteredData
    else filteredData in
  let filteredData :=
    if negb (selectedMonth sel =? "all")%string then
      (* [None] is [NaN] or [undefined]: neither is === to a month *)
      let parts := map Number_ (split "-" (selectedMonth sel)) in
      let monthStart := nth 0 parts None in
      let monthEnd := nth 1 parts None in
      filter (fun point =>
                let month := getMonth (Date_new (date point)) in
                strict_eq month monthStart || strict_eq month monthEnd)
             filteredData
    else filteredData in
  filteredData.

(** [{ ...originalDataset, data: filteredData }] *)
Definition updatedDataset (sel : FilterState) (originalDataset : MetricSeries)
  : MetricSeries :=
  {| label := label originalDataset;
     color := color originalDataset;
     data := filterData sel originalDataset |}.

(** [charts[index] = v] when [charts[index]] exists. *)
Fixpoint set_chart (charts : list (list Raw.Series)) (index : nat)
         (v : list Raw.Series) : list (list Raw.Series) :=
  match charts, index with
  | [], _ => []
  | _ :: rest, O => v :: rest
  | c :: rest, S i => c :: set_chart rest i v
  end.

(** The loop of [handleFilterChange] over [allData.datasets], from
    [index] on: the charts after it and [filteredDatasets]. *)
Fixpoint filterLoop (sel : FilterState) (index : nat)
         (originals : list MetricSeries)
         (charts : list (list Raw.Series)) (filteredDatasets : list MetricSeries)
  : list (list Raw.Series) * list MetricSeries :=
  match originals with
  | [] => (charts, filteredDatasets)
  | originalDataset :: rest =>
      let updated := updatedDataset sel originalDataset in
      let charts := set_chart charts index (formatDatasetsForChart [updated]) in
      filterLoop sel (S index) rest charts (filteredDatasets ++ [updated])
  end.

Definition handleFilterChange (sel : FilterState) (st : AppState) : AppState :=
  let '(charts, filteredDatasets) :=
    filterLoop sel 0 (datasets (allData st)) (chartInstances st) [] in
  let normalizedDatasets := normalizeAndFormatData filteredDatasets in
  let aggregateData := createAggregateData normalizedDatasets in
  {| allData := allData st;
     chartInstances := charts;
     summaryChart := normalizedDatasets;
     aggregateChart := aggregateData |}.

(** [init], once [data.json] is fetched and parsed. *)
Definition init (document : Document) : AppState :=
  let normalizedData := normalizeAndFormatData (datasets document) in
  let aggregateData := createAggregateData normalizedData in
  {| allData := document;
     chartInstances := map (fun dataset => formatDatasetsForChart [dataset])
                           (datasets document);
     summaryChart := normalizedData;
     aggregateChart := aggregateData |}.
End App.

(* ------------------------------------------------------------------ *)
(** ** Notions used to state the properties *)

(** [sel] with the quarter, or the month pair, put back to "all". *)
Definition all_quarters (sel : FilterState) : FilterState :=
  {| selectedYear := selectedYear sel;
     selectedQuarter := "all";
     selectedMonth := selectedMonth sel |}.

Definition all_months (sel : FilterState) : FilterState :=
  {| selectedYear := selectedYear sel;
     selectedQuarter := selectedQuarter sel;
     selectedMonth := "all" |}.

(** The points of all the series, in the order [createAggregateData]
    visits them. *)
Definition all_points (normalizedDatasets : list Norm.Series) : list Norm.Point :=
  flat_map Norm.data normalizedDatasets.

(** The sum of the normalised values of the points of [points] dated
    [k]. *)
Definition sum_on (k : string) (points : list Norm.Point) : Q :=
  fold_right (fun p acc => if (Norm.x p =? k)%string then (Norm.y p + acc)%Q else acc)
             0%Q points.



(** The value of an aggregate series on the date [k], if it has one. *)
Definition value_on (k : string) (aggregateData : list Agg.Point) : option Q :=
  option_map Agg.y (find (fun pt => (Agg.x pt =? k)%string) aggregateData).

(** Two results that agree: both absent, or both present and equal. *)
Definition same_value (a b : option Q) : Prop :=
  match a, b with
  | Some v, Some w => (v == w)%Q
  | None, None => True
  | _, _ => False
  end.

(** [a] is dated no later than [b], both dates being valid. *)
Definition chronological {host : Host} (a b : Agg.Point) : Prop :=
  match Date_new (Agg.x a), Date_new (Agg.x b) with
  | Some ta, Some tb => ta <= tb
  | _, _ => False
  end.

Section StageTests.
Context {host : Host}.

(** What each stage of [filterData] asks of a point; a selector on "all"
    asks nothing. *)
Definition yearTest (sel : FilterState) (point : DataPoint) : bool :=
  (selectedYear sel =? "all")%string
  || (Number_toString (getFullYear (Date_new (date point))) =? selectedYear sel)%string.

Definition quarterTest (sel : FilterState) (point : DataPoint) : bool :=
  (selectedQuarter sel =? "all")%string
  || (Number_toString (getQuarter (Date_new (date point))) =? selectedQuarter sel)%string.

Definition monthTest (sel : FilterState) (point : DataPoint) : bool :=
  (selectedMonth sel =? "all")%string
  || (let parts := map Number_ (split "-" (selectedMonth sel)) in
      let month := getMonth (Date_new (date point)) in
      strict_eq month (nth 0 parts None) || strict_eq month (nth 1 parts None)).
End StageTests.

(* ------------------------------------------------------------------ *)
(** ** A host, and the series of the specification's scenarios *)

(** The days before month [m] (1 to 12) in a year of [len] days, and the
    length of the month. *)
Definition days_before_month (len m : Z) : Z :=
  let leap := len - 365 in
  nth (Z.to_nat (m - 1))
      [0; 31; 59 + leap; 90 + leap; 120 + leap; 151 + leap; 181 + leap;
       212 + leap; 243 + leap; 273 + leap; 304 + leap; 334 + leap] 0.

Definition days_in_month (len m : Z) : Z :=
  if m =? 12 then 31 else days_before_month len (m + 1) - days_before_month len m.

(** Midnight UTC of day [d] of month [m] of year [y], when there is such a
    day. *)
Definition utc_midnight (y m d : option Z) : option Z :=
  match y, m, d with
  | Some y, Some m, Some d =>
      if (1 <=? m) && (m <=? 12) && (1 <=? d) && (d <=? days_in_month (DaysInYear y) m)
      then Some (msPerDay * (DayFromYear y + days_before_month (DaysInYear y) m + (d - 1)))
      else None
  | _, _, _ => None
  end.

(** The date-only forms of the standard's date-time string format,
    [YYYY-MM-DD] and, with an expanded year, [+YYYYYY-MM-DD] and
    [-YYYYYY-MM-DD] (year [-000000] excluded); any other string is not
    read. *)
Definition iso_date_parse (s : string) : option Z :=
  let num (i n : nat) := digits_value 0 (substring i n s) in
  let dash (i : nat) :=
    match String.get i s with Some c => Ascii.eqb c "-" | None => false end in
  (if String.length s =? 10 then
     if dash 4 && dash 7
     then utc_midnight (num 0 4) (num 5 2) (num 8 2)
     else None
   else if String.length s =? 13 then
     if dash 7 && dash 10 then
       match String.get 0 s, num 1 6 with
       | Some "+"%char, Some y => utc_midnight (Some y) (num 8 2) (num 11 2)
       | Some "-"%char, Some y =>
           if (y =? 0)%Z then None
           else utc_midnight (Some (- y)%Z) (num 8 2) (num 11 2)
       | _, _ => None
       end
     else None
   else None)%nat.

(** A browser whose local time is UTC. *)
Definition utc_host : Host :=
  {| Date_parse := iso_date_parse; LocalTZA := fun _ => 0 |}.

(** A browser five hours west of UTC. *)
Definition west_host : Host :=
  {| Date_parse := iso_date_parse; LocalTZA := fun _ => -18000000 |}.

(** The series of the scenarios of the specification. *)
Definition scenario_series : MetricSeries :=
  {| label := "commits";
     color := "rgba(0, 123, 255, 1)";
     data := [ {| date := "2023-01-01"; value := 10 |};
               {| date := "2023-06-01"; value := 30 |};
               {| date := "2023-12-01"; value := 20 |} ] |}.

Definition single_point_series : MetricSeries :=
  {| label := "forks";
     color := "rgba(75, 192, 192, 1)";
     data := [ {| date := "2023-06-01"; value := 7 |} ] |}.

(** A series with a date of the year 10000, in the expanded form. *)
Definition far_series : MetricSeries :=
  {| label := "issues";
     color := "rgba(153, 102, 255, 1)";
     data := [ {| date := "+010000-01-01"; value := 1 |};
               {| date := "2023-06-01"; value := 3 |} ] |}.

Definition loaded_document : Document :=
  {| datasets := [scenario_series; single_point_series]; events := [] |}.

Definition empty_series : MetricSeries :=
  {| label := "stars"; color := "rgba(255, 99, 132, 1)"; data := [] |}.

(* ------------------------------------------------------------------ *)
(** ** The event annotations and the year selector *)

Module Hue.
Record t := { h : Z; s : Z; l : Z }.
End Hue.

(** A box annotation, as [generateAnnotations] builds it for the
    annotation plugin. *)
Module Annotation.
Record Font := { size : Z }.
Record Label := {
  content : string;
  display : bool;
  position : string;
  color : string;
  font : Font;
  yAdjust : Z
}.
Record t := {
  type : string;
  xMin : string;
  xMax : string;
  backgroundColor : string;
  borderColor : string;
  borderWidth : Z;
  label : Label
}.
End Annotation.

(** An [option] element of a [select]. *)
Module Html.
Record Option := { value : string; textContent : string }.
End Html.

Definition eventHues : list Hue.t :=
  [ {| Hue.h := 210; Hue.s := 100; Hue.l := 60 |};
    {| Hue.h := 120; Hue.s := 70; Hue.l := 45 |};
    {| Hue.h := 45; Hue.s := 100; Hue.l := 60 |};
    {| Hue.h := 260; Hue.s := 90; Hue.l := 65 |};
    {| Hue.h := 0; Hue.s := 80; Hue.l := 60 |};
    {| Hue.h := 160; Hue.s := 70; Hue.l := 50 |} ].

(** The template literals [hsla(h, s%, l%, alpha)] and [hsl(h, s%, l%)],
    the numbers in decimal. *)
Definition hsla (h s l : Z) (alpha : string) : string :=
  ("hsla(" ++ Number_toString (Some h) ++ ", " ++ Number_toString (Some s) ++ "%, "
   ++ Number_toString (Some l) ++ "%, " ++ alpha ++ ")")%string.

Definition hsl (h s l : Z) : string :=
  ("hsl(" ++ Number_toString (Some h) ++ ", " ++ Number_toString (Some s) ++ "%, "
   ++ Number_toString (Some l) ++ "%)")%string.

(** [array.map((element, index) => f(element, index))], from [index] on. *)
Fixpoint map_from {A B} (f : A -> nat -> B) (index : nat) (l : list A) : list B :=
  match l with
  | [] => []
  | a :: rest => f a index :: map_from f (S index) rest
  end.

(** The annotation [generateAnnotations] makes of [event] at [index].
    [index % eventHues.length] is below the length of [eventHues], so
    [eventHues[...]] is one of its six entries. *)
Definition annotationOf (event : Event.t) (index : nat) : Annotation.t :=
  let baseHue :=
    nth (index mod List.length eventHues) eventHues
        {| Hue.h := 0; Hue.s := 0; Hue.l := 0 |} in
  let backgroundColor := hsla (Hue.h baseHue) (Hue.s baseHue) (Hue.l baseHue + 30) "0.1" in
  let borderColor := hsla (Hue.h baseHue) (Hue.s baseHue) (Hue.l baseHue + 20) "0.2" in
  let labelColor := hsl (Hue.h baseHue) (Hue.s baseHue) (Hue.l baseHue - 20) in
  {| Annotation.type := "box";
     Annotation.xMin := Event.startDate event;
     Annotation.xMax := Event.endDate event;
     Annotation.backgroundColor := backgroundColor;
     Annotation.borderColor := borderColor;
     Annotation.borderWidth := 1;
     Annotation.label :=
       {| Annotation.content := Event.label event;
          Annotation.display := true;
          Annotation.position := "start";
          Annotation.color := labelColor;
          Annotation.font := {| Annotation.size := 10 |};
          Annotation.yAdjust := Z.of_nat index * 12 |} |}.

Definition generateAnnotations (events : list Event.t) : list Annotation.t :=
  map_from annotationOf 0 events.

(** The comparison a [Set] makes of two numbers: [NaN] is the same value
    as [NaN]. *)
Definition same_value_zero (a b : option Z) : bool :=
  match a, b with
  | Some m, Some n => m =? n
  | None, None => true
  | _, _ => false
  end.

(** [years.add(year)] on a [Set] of numbers, kept in the order of
    insertion. *)
Definition Set_add (years : list (option Z)) (year : option Z) : list (option Z) :=
  if existsb (fun y => same_value_zero y year) years
  then years else years ++ [year].

(** The comparator [(a, b) => b - a]. *)
Definition descending (a b : option Z) : option Z :=
  match a, b with
  | Some m, Some n => Some (n - m)
  | _, _ => None
  end.

Section YearSelector.
Context {host : Host}.

(** The two loops of [populateYearFilter] that fill the set [years]. *)
Definition collectYears (datasets : list MetricSeries) : list (option Z) :=
  fold_left
    (fun years dataset =>
       fold_left
         (fun years point =>
            let year := getFullYear (Date_new (date point)) in
            Set_add years year)
         (data dataset) years)
    datasets [].

(** [Array.from(years).sort((a, b) => b - a)] *)
Definition sortedYears (datasets : list MetricSeries) : list (option Z) :=
  Array_sort descending (collectYears datasets).

(** [populateYearFilter]: the children of [yearFilter] after the call,
    [option.value = year] and [option.textContent = year] converting the
    number to a string. *)
Definition populateYearFilter (datasets : list MetricSeries)
           (yearFilter : list Html.Option) : list Html.Option :=
  fold_left
    (fun yearFilter year =>
       let option := {| Html.value := Number_toString year;
                        Html.textContent := Number_toString year |} in
       yearFilter ++ [option])
    (sortedYears datasets) yearFilter.
End YearSelector.

(* ------------------------------------------------------------------ *)
(** ** Further notions used to state the properties *)

(** [sel] with the year put back to "all", and the selection of no filter. *)
Definition all_years (sel : FilterState) : FilterState :=
  {| selectedYear := "all";
     selectedQuarter := selectedQuarter sel;
     selectedMonth := selectedMonth sel |}.

Definition no_filter : FilterState :=
  {| selectedYear := "all"; selectedQuarter := "all"; selectedMonth := "all" |}.

(** The state after the selections [sels] are made in turn. *)
Definition after_selections {host : Host} (sels : list FilterState) (st : AppState)
  : AppState :=
  fold_left (fun st sel => handleFilterChange sel st) sels st.

(** The date [a] is a valid date before the valid date [b]. *)
Definition strictly_earlier {host : Host} (a b : string) : Prop :=
  match Date_new a, Date_new b with
  | Some ta, Some tb => ta < tb
  | _, _ => False
  end.

(** The character [c] occurs in [s]. *)
Fixpoint has_char (c : ascii) (s : string) : bool :=
  match s with
  | EmptyString => false
  | String c' rest => Ascii.eqb c' c || has_char c rest
  end.

(** A series with a point whose date is not read as a date. *)
Definition damaged_point : DataPoint := {| date := "soon"; value := 4 |}.

Definition damaged_series : MetricSeries :=
  {| label := "pulls"; color := "#36a2eb";
     data := [ {| date := "2022-03-01"; value := 2 |}; damaged_point ] |}.

(** Events of the scenarios. *)
Definition launch_events : list Event.t :=
  [ {| Event.label := "Testnet"; Event.startDate := "2023-01-15"; Event.endDate := "2023-02-15" |};
    {| Event.label := "Hackathon"; Event.startDate := "2023-03-01"; Event.endDate := "2023-03-10" |};
    {| Event.label := "Audit"; Event.startDate := "2023-04-01"; Event.endDate := "2023-05-01" |};
    {| Event.label := "Mainnet"; Event.startDate := "2023-06-01"; Event.endDate := "2023-06-30" |};
    {| Event.label := "Grants"; Event.startDate := "2023-07-01"; Event.endDate := "2023-08-01" |};
    {| Event.label := "Summit"; Event.startDate := "2023-09-01"; Event.endDate := "2023-09-03" |};
    {| Event.label := "Upgrade"; Event.startDate := "2023-10-01"; Event.endDate := "2023-10-15" |} ].

(* ------------------------------------------------------------------ *)
(** ** The normaliser and the aggregator on binary64 numbers

    The same functions of app.js with the numbers of the language itself,
    IEEE 754 binary64 with rounding to nearest even, which the primitive
    type [float] is.  They decide the properties on which rounding or
    overflow bears. *)

Module B64.

Record DataPoint := { date : string; value : float }.

Record MetricSeries := { label : string; color : string; data : list DataPoint }.

Module Norm.
Record Point := { x : string; y : float; originalValue : float }.
Record Series := { label : string; color : option string; data : list Point }.
End Norm.

Module Agg.
Record Point := { x : string; y : float }.
End Agg.

(** One step of [Math.min]: a [NaN] makes the result [NaN], -0 is below
    +0, otherwise the smaller number is kept. *)
Definition min_step (lowest number : float) : float :=
  if is_nan lowest || is_nan number then nan
  else if Leibniz.eqb number neg_zero && Leibniz.eqb lowest zero then number
  else if (number <? lowest)%float then number
  else lowest.

Definition max_step (highest number : float) : float :=
  if is_nan highest || is_nan number then nan
  else if Leibniz.eqb number zero && Leibniz.eqb highest neg_zero then number
  else if (highest <? number)%float then number
  else highest.

(** [Math.min(...values)] and [Math.max(...values)]: from +Infinity down
    and from -Infinity up. *)
Definition Math_min (values : list float) : float := fold_left min_step values infinity.
Definition Math_max (values : list float) : float := fold_left max_step values neg_infinity.

Definition normalizeDataset (dataset : MetricSeries) : Norm.Series :=
  if (List.length (data dataset) =? 0)%nat then
    (* { ...dataset, data: [] } *)
    {| Norm.label := label dataset;
       Norm.color := Some (color dataset);
       Norm.data := [] |}
  else
    let values := map value (data dataset) in
    let min := Math_min values in
    let max := Math_max values in
    let range := (max - min)%float in
    let normalizedData :=
      map (fun point =>
             let normalizedValue :=
               if (range =? 0)%float then 50%float
               else ((value point - min) / range * 100)%float in
             {| Norm.x := date point;
                Norm.y := normalizedValue;
                Norm.originalValue := value point |})
          (data dataset) in
    {| Norm.label := label dataset;
       Norm.color := None;
       Norm.data := normalizedData |}.

Definition normalizeAndFormatData (datasets : list MetricSeries) : list Norm.Series :=
  map normalizeDataset datasets.

(** The object [dateMap], its own properties in the order of creation, as
    [JSObject] above. *)
Definition DateMap := list (string * float).

Fixpoint obj_get (o : DateMap) (k : string) : option float :=
  match o with
  | [] => None
  | (k', v) :: o' => if String.eqb k' k then Some v else obj_get o' k
  end.

Fixpoint obj_set (o : DateMap) (k : string) (v : float) : DateMap :=
  match o with
  | [] => [(k, v)]
  | (k', v') :: o' =>
      if String.eqb k' k then (k', v) :: o' else (k', v') :: obj_set o' k v
  end.

(** [v || 0]: [undefined], [NaN], +0 and -0 are falsy. *)
Definition or_zero (v : option float) : float :=
  match v with
  | Some q => if is_nan q || (q =? 0)%float then 0%float else q
  | None => 0%float
  end.

Definition addPoint (dateMap : DateMap) (point : Norm.Point) : DateMap :=
  obj_set dateMap (Norm.x point)
          (or_zero (obj_get dateMap (Norm.x point)) + Norm.y point)%float.

Definition fillDateMap (normalizedDatasets : list Norm.Series) : DateMap :=
  fold_left
    (fun dateMap dataset => fold_left addPoint (Norm.data dataset) dateMap)
    normalizedDatasets [].

Definition Object_entries (o : DateMap) : list (string * float) :=
  Array_sort
    (fun a b => match array_index (fst a), array_index (fst b) with
                | Some m, Some n => Some (m - n)
                | _, _ => None
                end)
    (filter (fun e => is_array_index (fst e)) o)
  ++ filter (fun e => negb (is_array_index (fst e))) o.

Definition createAggregateData {host : Host} (normalizedDatasets : list Norm.Series)
  : list Agg.Point :=
  let dateMap := fillDateMap normalizedDatasets in
  let aggregateData :=
    map (fun e => {| Agg.x := fst e; Agg.y := snd e |}) (Object_entries dateMap) in
  Array_sort (fun a b => Date_sub (Date_new (Agg.x a)) (Date_new (Agg.x b)))
             aggregateData.

(** *** Notions used to state the properties *)

Definition all_points (normalizedDatasets : list Norm.Series) : list Norm.Point :=
  flat_map Norm.data normalizedDatasets.

(** The value of an aggregate series on the date [k], if it has one. *)
Definition value_on (k : string) (aggregateData : list Agg.Point) : option float :=
  option_map Agg.y (find (fun pt => (Agg.x pt =? k)%string) aggregateData).



#[local] Set Warnings "-inexact-float".

(** A series whose values are finite and whose range is not. *)
Definition wide_series : MetricSeries :=
  {| label := "supply";
     color := "rgba(255, 159, 64, 1)";
     data := [ {| date := "2023-01-01"; value := (-1.7e308)%float |};
               {| date := "2023-06-01"; value := 0%float |};
               {| date := "2023-12-01"; value := 1.7e308%float |} ] |}.

#[local] Set Warnings "+inexact-float".

Definition scenario_series : MetricSeries :=
  {| label := "commits";
     color := "rgba(0, 123, 255, 1)";
     data := [ {| date := "2023-01-01"; value := 10%float |};
               {| date := "2023-06-01"; value := 30%float |};
               {| date := "2023-12-01"; value := 20%float |} ] |}.



End B64.

Lemma YearFromTime_spec t :
  TimeFromYear (YearFromTime t) <= t < TimeFromYear (YearFromTime t + 1).
Proof.
  unfold TimeFromYear, YearFromTime, DayFromYear, Day, msPerDay.
  repeat match goal with
         | |- context [if ?b then _ else _] => destruct b eqn:?
         end;
  Z.to_euclidean_division_equations; lia.
Qed.

Lemma MonthFromTime_range t : 0 <= MonthFromTime t <= 11.
Proof.
  unfold MonthFromTime.
  repeat match goal with
         | |- context [if ?b then _ else _] => destruct b
         end; lia.
Qed.

(* ------------------------------------------------------------------ *)
(** ** Minimum and maximum of a series *)

Lemma Qmin_cases a b : Qmin a b = a \/ Qmin a b = b.
Proof. unfold Qmin, GenericMinMax.gmin. destruct (a ?= b)%Q; auto. Qed.

Lemma Qmax_cases a b : Qmax a b = a \/ Qmax a b = b.
Proof. unfold Qmax, GenericMinMax.gmax. destruct (a ?= b)%Q; auto. Qed.

Lemma Math_min_In vs : forall v, In (Math_min v vs) (v :: vs).
Proof.
  unfold Math_min.
  induction vs as [|u vs IH]; intros v; simpl; [now left|].
  destruct (IH (Qmin v u)) as [E|HIn]; [|now right; right].
  rewrite <- E. destruct (Qmin_cases v u) as [-> | ->]; auto.
Qed.

Lemma Math_max_In vs : forall v, In (Math_max v vs) (v :: vs).
Proof.
  unfold Math_max.
  induction vs as [|u vs IH]; intros v; simpl; [now left|].
  destruct (IH (Qmax v u)) as [E|HIn]; [|now right; right].
  rewrite <- E. destruct (Qmax_cases v u) as [-> | ->]; auto.
Qed.

Lemma Math_min_le vs : forall v u, In u (v :: vs) -> (Math_min v vs <= u)%Q.
Proof.
  unfold Math_min.
  induction vs as [|w vs IH]; intros v u HIn; simpl.
  - destruct HIn as [->|[]]. apply Qle_refl.
  - assert (Hacc : (fold_left Qmin vs (Qmin v w) <= Qmin v w)%Q)
      by (apply IH; now left).
    destruct HIn as [->|[->|HIn]].
    + eapply Qle_trans; [exact Hacc | apply Q.le_min_l].
    + eapply Qle_trans; [exact Hacc | apply Q.le_min_r].
    + apply IH. now right.
Qed.

Lemma Math_max_ge vs : forall v u, In u (v :: vs) -> (u <= Math_max v vs)%Q.
Proof.
  unfold Math_max.
  induction vs as [|w vs IH]; intros v u HIn; simpl.
  - destruct HIn as [->|[]]. apply Qle_refl.
  - assert (Hacc : (Qmax v w <= fold_left Qmax vs (Qmax v w))%Q)
      by (apply IH; now left).
    destruct HIn as [->|[->|HIn]].
    + eapply Qle_trans; [apply Q.le_max_l | exact Hacc].
    + eapply Qle_trans; [apply Q.le_max_r | exact Hacc].
    + apply IH. now right.
Qed.

Lemma normalizeAndFormatData_nth datasets i :
  nth_error (normalizeAndFormatData datasets) i
  = option_map normalizeDataset (nth_error datasets i).
Proof. unfold normalizeAndFormatData. apply nth_error_map. Qed.

(** The shape of the result for a series with at least one point. *)
Lemma normalizeDataset_cons dataset p ps :
  data dataset = p :: ps ->
  normalizeDataset dataset =
  {| Norm.label := label dataset;
     Norm.color := None;
     Norm.data :=
       map (fun point =>
              {| Norm.x := date point;
                 Norm.y :=
                   if Qeq_bool (Math_max (value p) (map value ps)
                                - Math_min (value p) (map value ps)) 0
                   then 50%Q
                   else ((value point - Math_min (value p) (map value ps))
                         / (Math_max (value p) (map value ps)
                            - Math_min (value p) (map value ps)) * 100)%Q;
                 Norm.originalValue := value point |})
           (p :: ps) |}.
Proof. intros E. unfold normalizeDataset. now rewrite E. Qed.

Lemma Forall2_map_r {A B} (R : A -> B -> Prop) (f : A -> B) l :
  Forall (fun a => R a (f a)) l -> Forall2 R l (map f l).
Proof. induction 1; simpl; constructor; auto. Qed.

(* ------------------------------------------------------------------ *)
(** ** The normaliser *)

(** C3.  A series with at least one point, all of whose values are equal
    (a series of one point is such a series): every point of the result has
    the normalised value 50. *)
Theorem identical_values_normalize_to_50 datasets i dataset :
  nth_error datasets i = Some dataset ->
  data dataset <> [] ->
  (forall p q, In p (data dataset) -> In q (data dataset) -> value p == value q)%Q ->
  exists out,
    nth_error (normalizeAndFormatData datasets) i = Some out /\
    List.length (Norm.data out) = List.length (data dataset) /\
    Forall (fun npt => Norm.y npt = 50%Q) (Norm.data out).
Proof.
  intros Hnth Hne Hsame.
  rewrite normalizeAndFormatData_nth, Hnth. simpl.
  eexists; split; [reflexivity|].
  destruct (data dataset) as [|p ps] eqn:E; [congruence|].
  rewrite (normalizeDataset_cons _ _ _ E). cbn [Norm.data].
  assert (Hrange : Qeq_bool (Math_max (value p) (map value ps)
                             - Math_min (value p) (map value ps)) 0 = true).
  { apply Qeq_eq_bool.
    pose proof (Math_max_In (map value ps) (value p)) as Hmx.
    pose proof (Math_min_In (map value ps) (value p)) as Hmn.
    change (In (Math_max (value p) (map value ps)) (map value (p :: ps))) in Hmx.
    change (In (Math_min (value p) (map value ps)) (map value (p :: ps))) in Hmn.
    apply in_map_iff in Hmx as (a & <- & Ha).
    apply in_map_iff in Hmn as (b & <- & Hb).
    rewrite (Hsame a b Ha Hb). ring. }
  rewrite Hrange. split.
  - now rewrite length_map.
  - apply Forall_forall. intros npt Hin.
    apply in_map_iff in Hin as (point & <- & _). reflexivity.
Qed.

(** The loop of [handleFilterChange] collects the filtered copy of every
    dataset, in order. *)
Lemma filterLoop_snd {host : Host} sel originals :
  forall index charts acc,
    snd (filterLoop sel index originals charts acc)
    = acc ++ map (updatedDataset sel) originals.
Proof.
  induction originals as [|d rest IH]; intros index charts acc; simpl.
  - now rewrite app_nil_r.
  - rewrite IH, <- app_assoc. reflexivity.
Qed.

(** Opens [handleFilterChange] on the result of its loop, of which the
    second component is known by [filterLoop_snd]. *)
Ltac open_handler sel st :=
  unfold handleFilterChange;
  let H := fresh "Hloop" in
  pose proof (filterLoop_snd sel (datasets (allData st)) 0 (chartInstances st) []) as H;
  destruct (filterLoop sel 0 (datasets (allData st)) (chartInstances st) [])
    as [? ?];
  simpl in *; try rewrite H.

Lemma handleFilterChange_summaryChart {host : Host} sel st :
  summaryChart (handleFilterChange sel st)
  = normalizeAndFormatData (map (updatedDataset sel) (datasets (allData st))).
Proof. open_handler sel st. reflexivity. Qed.

Lemma handleFilterChange_aggregateChart {host : Host} sel st :
  aggregateChart (handleFilterChange sel st)
  = createAggregateData
      (normalizeAndFormatData (map (updatedDataset sel) (datasets (allData st)))).
Proof. open_handler sel st. reflexivity. Qed.

Lemma handleFilterChange_allData {host : Host} sel st :
  allData (handleFilterChange sel st) = allData st.
Proof. open_handler sel st. reflexivity. Qed.

(** C5.  A series without points is normalised to a result without points,
    under its own label; so is, in [handleFilterChange], a series none of
    whose points passes the filters. *)
Theorem empty_series_normalizes_to_empty :
  (forall datasets i dataset,
      nth_error datasets i = Some dataset ->
      data dataset = [] ->
      exists out,
        nth_error (normalizeAndFormatData datasets) i = Some out /\
        Norm.label out = label dataset /\
        Norm.data out = []) /\
  (forall (host : Host) sel st i dataset,
      nth_error (datasets (allData st)) i = Some dataset ->
      filterData sel dataset = [] ->
      exists out,
        nth_error (summaryChart (handleFilterChange sel st)) i = Some out /\
        Norm.label out = label dataset /\
        Norm.data out = []).
Proof.
  assert (Hempty : forall datasets i dataset,
             nth_error datasets i = Some dataset ->
             data dataset = [] ->
             exists out,
               nth_error (normalizeAndFormatData datasets) i = Some out /\
               Norm.label out = label dataset /\
               Norm.data out = []).
  { intros datasets i dataset Hnth E.
    rewrite normalizeAndFormatData_nth, Hnth. simpl.
    eexists; split; [reflexivity|].
    unfold normalizeDataset. rewrite E. split; reflexivity. }
  split; [exact Hempty|].
  intros host sel st i dataset Hnth E.
  rewrite handleFilterChange_summaryChart.
  destruct (Hempty (map (updatedDataset sel) (datasets (allData st))) i
                   (updatedDataset sel dataset)) as (out & Hout & Hl & Hd).
  - rewrite nth_error_map, Hnth. reflexivity.
  - exact E.
  - exists out. auto.
Qed.

(** The claim of the specification on the fields of a result fails on a
    series without points: there the result keeps [color]. *)
Lemma fields_of_empty_series_result :
  map Norm.fields (normalizeAndFormatData [empty_series])
  = [["label"; "color"; "data"]]
  /\ map Norm.fields (normalizeAndFormatData [empty_series]) <> [["label"; "data"]].
Proof. split; [reflexivity | discriminate]. Qed.

(** C6, as the code has it.  Each result carries the label of its series
    and, point by point, the date, the original value and a normalised
    value.  For a series with a point its fields are [label] and [data]
    only; for a series without points it is the series itself with [data]
    empty, [color] included. *)
Theorem normalize_result_shape datasets :
  Forall2
    (fun dataset out =>
       Norm.label out = label dataset /\
       Forall2 (fun point npt =>
                  Norm.x npt = date point /\ Norm.originalValue npt = value point)
               (data dataset) (Norm.data out) /\
       (data dataset <> [] -> Norm.fields out = ["label"; "data"]) /\
       (data dataset = [] ->
        Norm.fields out = ["label"; "color"; "data"] /\
        Norm.color out = Some (color dataset)))
    datasets (normalizeAndFormatData datasets).
Proof.
  unfold normalizeAndFormatData.
  apply Forall2_map_r, Forall_forall. intros dataset _.
  destruct (data dataset) as [|p ps] eqn:E.
  - unfold normalizeDataset. rewrite E. cbn.
    repeat split; try constructor; congruence.
  - rewrite (normalizeDataset_cons _ _ _ E). cbn [Norm.label Norm.data].
    split; [reflexivity|]. split.
    + apply Forall2_map_r, Forall_forall. intros point _. cbn. auto.
    + split; [reflexivity | discriminate].
Qed.

(* ------------------------------------------------------------------ *)
(** ** The filter engine *)

Lemma filter_filter {A} (f g : A -> bool) l :
  filter f (filter g l) = filter (fun a => g a && f a) l.
Proof.
  induction l as [|a l IH]; simpl; [reflexivity|].
  destruct (g a); simpl; [destruct (f a)|]; now rewrite IH.
Qed.

Lemma filter_comm {A} (f g : A -> bool) l :
  filter f (filter g l) = filter g (filter f l).
Proof.
  rewrite !filter_filter. apply filter_ext. intros a. apply andb_comm.
Qed.

Lemma stage_filter {A} (all : bool) (f : A -> bool) l :
  (if negb all then filter f l else l) = filter (fun a => all || f a) l.
Proof. destruct all; simpl; [now rewrite filter_true | reflexivity]. Qed.

(** [filterData] is the three tests applied in turn. *)
Lemma filterData_stages {host : Host} sel dataset :
  filterData sel dataset
  = filter (monthTest sel) (filter (quarterTest sel) (filter (yearTest sel) (data dataset))).
Proof.
  unfold filterData. cbv zeta. rewrite !stage_filter. reflexivity.
Qed.

Lemma Z_to_int_not_nil z :
  Z.to_int z <> Decimal.Pos Decimal.Nil /\ Z.to_int z <> Decimal.Neg Decimal.Nil.
Proof.
  split; intros E; pose proof (f_equal Z.of_int E) as E0;
    rewrite DecimalZ.of_to in E0; simpl in E0; subst z; discriminate.
Qed.

Lemma Number_toString_inj a b : Number_toString a = Number_toString b -> a = b.
Proof.
  assert (Hparse : forall z, NilZero.int_of_string (Number_toString (Some z)) = Some (Z.to_int z)).
  { intros z. destruct (Z_to_int_not_nil z). now apply NilZero.isi. }
  destruct a as [a|], b as [b|]; intros E; try reflexivity.
  - apply (f_equal NilZero.int_of_string) in E. rewrite !Hparse in E.
    injection E as E. now apply DecimalZ.to_int_inj in E; subst.
  - apply (f_equal NilZero.int_of_string) in E. rewrite Hparse in E. discriminate.
  - apply (f_equal NilZero.int_of_string) in E. rewrite Hparse in E. discriminate.
Qed.

(** Comparing the decimal forms is comparing the numbers, [NaN] apart. *)
Lemma Number_toString_eqb n z :
  (Number_toString n =? Number_toString (Some z))%string = strict_eq n (Some z).
Proof.
  destruct (String.eqb_spec (Number_toString n) (Number_toString (Some z))) as [E|N].
  - apply Number_toString_inj in E. subst n. simpl. symmetry. apply Z.eqb_refl.
  - destruct n as [m|]; simpl; [|reflexivity].
    symmetry. apply Z.eqb_neq. intros ->. now apply N.
Qed.

Lemma Number_toString_not_all z : (Number_toString (Some z) =? "all")%string = false.
Proof.
  apply String.eqb_neq. intros E.
  apply (f_equal NilZero.int_of_string) in E.
  destruct (Z_to_int_not_nil z).
  simpl Number_toString in E. rewrite NilZero.isi in E by assumption. discriminate.
Qed.

(** The value of the month selector for the pair [(a, b)], as [split] and
    [Number] read it. *)
Lemma month_pair_parts a b :
  0 <= a <= 11 -> 0 <= b <= 11 ->
  map Number_ (split "-" (Number_toString (Some a) ++ "-" ++ Number_toString (Some b)))
  = [Some a; Some b].
Proof.
  intros Ha Hb.
  assert (Ea : a = 0 \/ a = 1 \/ a = 2 \/ a = 3 \/ a = 4 \/ a = 5 \/ a = 6
               \/ a = 7 \/ a = 8 \/ a = 9 \/ a = 10 \/ a = 11) by lia.
  assert (Eb : b = 0 \/ b = 1 \/ b = 2 \/ b = 3 \/ b = 4 \/ b = 5 \/ b = 6
               \/ b = 7 \/ b = 8 \/ b = 9 \/ b = 10 \/ b = 11) by lia.
  repeat (destruct Ea as [->|Ea]); try subst a;
    repeat (destruct Eb as [->|Eb]); try subst b; reflexivity.
Qed.

Lemma month_pair_not_all a b :
  (Number_toString (Some a) ++ "-" ++ Number_toString (Some b) =? "all")%string = false.
Proof.
  apply String.eqb_neq. intros E.
  assert (H : forall s t, (s ++ "-" ++ t)%string = "all" ->
                          exists c r, s = String c r /\ (c = "a")%char).
  { intros s t. destruct s as [|c r]; simpl; [discriminate|].
    intros [= -> _]. eauto. }
  destruct (H _ _ E) as (c & r & Es & ->).
  apply (f_equal NilZero.int_of_string) in Es.
  destruct (Z_to_int_not_nil a).
  simpl Number_toString in Es. rewrite NilZero.isi in Es by assumption.
  simpl in Es. destruct (NilEmpty.uint_of_string r); discriminate.
Qed.

(** C7.  The quarter of a date is [floor(month / 3) + 1] for its 0-based
    month: 1 for month 0, 2 for month 5, 4 for month 11, and always one of 1
    to 4.  With quarter [q] selected, the filter keeps exactly the points of
    the series whose date is of quarter [q] and which the year and month
    selectors keep, in their order: all the points of quarter [q] of the
    series when those two selectors are on "all". *)
Theorem quarter_derivation_and_filter {host : Host} :
  (forall date m, getMonth date = Some m ->
                  getQuarter date = Some (m / 3 + 1) /\ 1 <= m / 3 + 1 <= 4) /\
  (forall date, getMonth date = Some 0 -> getQuarter date = Some 1) /\
  (forall date, getMonth date = Some 5 -> getQuarter date = Some 2) /\
  (forall date, getMonth date = Some 11 -> getQuarter date = Some 4) /\
  (forall sel dataset q,
      1 <= q <= 4 ->
      selectedQuarter sel = Number_toString (Some q) ->
      filterData sel dataset
      = filter (fun point =>
                  yearTest sel point
                  && strict_eq (getQuarter (Date_new (date point))) (Some q)
                  && monthTest sel point)
               (data dataset)
      /\ (selectedYear sel = "all" -> selectedMonth sel = "all" ->
          filterData sel dataset
          = filter (fun point => strict_eq (getQuarter (Date_new (date point))) (Some q))
                   (data dataset))
      /\ (forall point,
             In point (filterData sel dataset) <->
             In point (data dataset)
             /\ getQuarter (Date_new (date point)) = Some q
             /\ In point (filterData (all_quarters sel) dataset))).
Proof.
  assert (Hq : forall date m, getMonth date = Some m -> getQuarter date = Some (m / 3 + 1)).
  { intros date m E. unfold getQuarter. now rewrite E. }
  split; [|split; [|split; [|split]]].
  - intros date m E. split; [now apply Hq|].
    destruct date as [t|]; [|discriminate]. injection E as <-.
    pose proof (MonthFromTime_range (LocalTime t)).
    Z.to_euclidean_division_equations; lia.
  - intros date E. now rewrite (Hq _ _ E).
  - intros date E. now rewrite (Hq _ _ E).
  - intros date E. now rewrite (Hq _ _ E).
  - intros sel dataset q _ Esel.
    assert (Etest : forall point,
               quarterTest sel point
               = strict_eq (getQuarter (Date_new (date point))) (Some q)).
    { intros point. unfold quarterTest.
      now rewrite Esel, Number_toString_not_all, Number_toString_eqb. }
    assert (Eabs : filterData sel dataset
                   = filter (fun point =>
                               yearTest sel point
                               && strict_eq (getQuarter (Date_new (date point))) (Some q)
                               && monthTest sel point)
                            (data dataset)).
    { rewrite filterData_stages, !filter_filter. apply filter_ext.
      intros point. now rewrite Etest, andb_assoc. }
    split; [exact Eabs|]. split.
    + intros Ey Em. rewrite Eabs. apply filter_ext. intros point.
      unfold yearTest, monthTest. rewrite Ey, Em. simpl. apply andb_true_r.
    + intros point. rewrite Eabs, filterData_stages, !filter_In.
      unfold quarterTest at 1. cbn [all_quarters selectedQuarter]. simpl orb.
      rewrite !andb_true_iff.
      assert (Es : strict_eq (getQuarter (Date_new (date point))) (Some q) = true
                   <-> getQuarter (Date_new (date point)) = Some q).
      { destruct (getQuarter (Date_new (date point))) as [v|]; simpl;
          [rewrite Z.eqb_eq; split; congruence | split; discriminate]. }
      rewrite Es. unfold yearTest, monthTest. cbn [all_quarters selectedYear selectedMonth].
      tauto.
Qed.

(** C4.  With the month pair [(a, b)] selected, the filter keeps exactly
    the points of the series whose month is [a] or is [b] and which the year
    and quarter selectors keep, in their order: all the points of month [a]
    or [b] of the series when those two selectors are on "all"; a point of a
    month strictly between [a] and [b] is removed. *)
Theorem month_pair_filter_matches_either_endpoint {host : Host} sel dataset a b :
  0 <= a <= 11 -> 0 <= b <= 11 ->
  selectedMonth sel = (Number_toString (Some a) ++ "-" ++ Number_toString (Some b))%string ->
  filterData sel dataset
  = filter (fun point =>
              let month := getMonth (Date_new (date point)) in
              yearTest sel point && quarterTest sel point
              && (strict_eq month (Some a) || strict_eq month (Some b)))
           (data dataset)
  /\ (selectedYear sel = "all" -> selectedQuarter sel = "all" ->
      filterData sel dataset
      = filter (fun point =>
                  let month := getMonth (Date_new (date point)) in
                  strict_eq month (Some a) || strict_eq month (Some b))
               (data dataset))
  /\ (forall point,
         In point (filterData sel dataset) <->
         In point (data dataset)
         /\ (getMonth (Date_new (date point)) = Some a
             \/ getMonth (Date_new (date point)) = Some b)
         /\ In point (filterData (all_months sel) dataset))
  /\ (forall point m,
         getMonth (Date_new (date point)) = Some m ->
         a < m < b ->
         ~ In point (filterData sel dataset)).
Proof.
  intros Ha Hb Esel.
  assert (Etest : forall point,
             monthTest sel point
             = (strict_eq (getMonth (Date_new (date point))) (Some a)
                || strict_eq (getMonth (Date_new (date point))) (Some b))).
  { intros point. unfold monthTest.
    rewrite Esel, month_pair_not_all, month_pair_parts by assumption.
    reflexivity. }
  assert (Eabs : filterData sel dataset
                 = filter (fun point =>
                             let month := getMonth (Date_new (date point)) in
                             yearTest sel point && quarterTest sel point
                             && (strict_eq month (Some a) || strict_eq month (Some b)))
                          (data dataset)).
  { rewrite filterData_stages, !filter_filter. apply filter_ext.
    intros point. cbv zeta. rewrite Etest.
    destruct (yearTest sel point), (quarterTest sel point); reflexivity. }
  assert (Es : forall point,
             strict_eq (getMonth (Date_new (date point))) (Some a)
             || strict_eq (getMonth (Date_new (date point))) (Some b) = true
             <-> getMonth (Date_new (date point)) = Some a
                 \/ getMonth (Date_new (date point)) = Some b).
  { intros point. rewrite orb_true_iff.
    destruct (getMonth (Date_new (date point))) as [v|]; simpl.
    - rewrite !Z.eqb_eq. split; intros [H|H]; [left|right|left|right]; congruence.
    - split; intros [H|H]; discriminate. }
  split; [exact Eabs|]. split; [|split].
  - intros Ey Eq. rewrite Eabs. apply filter_ext. intros point.
    unfold yearTest, quarterTest. rewrite Ey, Eq. reflexivity.
  - intros point. rewrite Eabs, filterData_stages, !filter_In. cbv zeta.
    rewrite !andb_true_iff, Es.
    unfold monthTest at 1. cbn [all_months selectedMonth]. simpl orb.
    unfold yearTest, quarterTest. cbn [all_months selectedYear selectedQuarter].
    tauto.
  - intros point m Em Hbetween Hin.
    rewrite Eabs in Hin. apply filter_In in Hin as [_ Hkeep].
    cbv zeta in Hkeep. apply andb_true_iff in Hkeep as [_ Hkeep].
    rewrite Em in Hkeep. simpl in Hkeep.
    apply orb_true_iff in Hkeep as [E|E]; apply Z.eqb_eq in E; lia.
Qed.

(** C10.  Running the loop of [handleFilterChange] on the series it has
    produced, under the same selection, gives those series again. *)
Theorem filtering_is_idempotent {host : Host} sel originals charts charts' :
  let once := snd (filterLoop sel 0 originals charts []) in
  snd (filterLoop sel 0 once charts' []) = once.
Proof.
  cbv zeta. rewrite !filterLoop_snd. simpl. rewrite map_map.
  apply map_ext. intros dataset. unfold updatedDataset at 1. simpl.
  unfold updatedDataset. f_equal.
  rewrite (filterData_stages sel {| label := _; color := _; data := _ |}). simpl.
  rewrite filterData_stages.
  rewrite !filter_filter. apply filter_ext. intros point.
  now destruct (yearTest sel point), (quarterTest sel point), (monthTest sel point).
Qed.

(* ------------------------------------------------------------------ *)
(** ** Objects and arrays *)

Lemma obj_get_set o k v k' :
  obj_get (obj_set o k v) k' = if String.eqb k k' then Some v else obj_get o k'.
Proof.
  induction o as [|[k0 v0] o IH]; simpl; [reflexivity|].
  destruct (String.eqb_spec k0 k) as [->|N]; simpl.
  - now destruct (String.eqb k k').
  - rewrite IH. destruct (String.eqb_spec k0 k') as [->|N']; [|reflexivity].
    destruct (String.eqb_spec k k') as [->|]; [contradiction | reflexivity].
Qed.

Lemma obj_set_keys o k v k' :
  In k' (map fst (obj_set o k v)) <-> In k' (map fst o) \/ k' = k.
Proof.
  induction o as [|[k0 v0] o IH]; simpl.
  - intuition.
  - destruct (String.eqb_spec k0 k) as [->|N]; simpl.
    + intuition.
    + rewrite IH. intuition.
Qed.

Lemma obj_set_NoDup o k v : NoDup (map fst o) -> NoDup (map fst (obj_set o k v)).
Proof.
  induction o as [|[k0 v0] o IH]; simpl; intros H.
  - constructor; [intros [] | constructor].
  - inversion H as [|? ? Hnin Hnd]; subst.
    destruct (String.eqb_spec k0 k) as [->|N]; simpl.
    + now constructor.
    + constructor; [|now apply IH].
      rewrite obj_set_keys. intros [Hin | ->]; [contradiction | now apply N].
Qed.

(** [o[k]] is the value stored under [k]. *)
Lemma obj_get_In o k v : NoDup (map fst o) -> In (k, v) o -> obj_get o k = Some v.
Proof.
  induction o as [|[k0 v0] o IH]; simpl; intros Hnd Hin; [contradiction|].
  inversion Hnd as [|? ? Hnin Hnd']; subst.
  destruct Hin as [[= -> ->]|Hin].
  - now rewrite String.eqb_refl.
  - destruct (String.eqb_spec k0 k) as [->|N]; [|now apply IH].
    exfalso. apply Hnin. change k with (fst (k, v)). now apply in_map.
Qed.

Lemma or_zero_Some q : (or_zero (Some q) == q)%Q.
Proof.
  simpl. destruct (Qeq_bool q 0) eqn:B; [|reflexivity].
  symmetry. now apply Qeq_bool_eq.
Qed.

Section SortFacts.
Context {A : Type} (comparefn : A -> A -> option Z).

Lemma sort_insert_perm a l : Permutation (sort_insert comparefn a l) (a :: l).
Proof.
  induction l as [|b l IH]; simpl; [reflexivity|].
  destruct (sorts_after comparefn a b); [|reflexivity].
  rewrite IH. apply perm_swap.
Qed.

Lemma Array_sort_perm l : Permutation (Array_sort comparefn l) l.
Proof.
  induction l as [|a l IH]; simpl; [reflexivity|].
  rewrite sort_insert_perm. now constructor.
Qed.

(** With a comparator that is the difference of integer keys, the result
    is in ascending order of the keys. *)
Variable key : A -> Z.

Lemma sort_insert_sorted a l :
  (forall b, In b l -> comparefn a b = Some (key a - key b)) ->
  StronglySorted (fun u v => key u <= key v) l ->
  StronglySorted (fun u v => key u <= key v) (sort_insert comparefn a l).
Proof.
  induction l as [|b l IH]; simpl; intros Hcmp Hs.
  - constructor; constructor.
  - inversion Hs as [|? ? Hs' Hall]; subst.
    unfold sorts_after. rewrite (Hcmp b) by now left.
    destruct (Z.ltb_spec 0 (key a - key b)) as [Hgt|Hle].
    + constructor; [apply IH; auto|].
      apply Forall_forall. intros u Hu.
      apply (Permutation_in _ (sort_insert_perm a l)) in Hu.
      destruct Hu as [<-|Hu]; [lia|].
      rewrite Forall_forall in Hall. now apply Hall.
    + constructor; [exact Hs|].
      constructor; [lia|].
      rewrite Forall_forall in Hall |- *. intros u Hu.
      specialize (Hall u Hu). lia.
Qed.

Lemma Array_sort_sorted l :
  (forall a b, In a l -> In b l -> comparefn a b = Some (key a - key b)) ->
  StronglySorted (fun u v => key u <= key v) (Array_sort comparefn l).
Proof.
  induction l as [|a l IH]; simpl; intros Hcmp; [constructor|].
  apply sort_insert_sorted.
  - intros b Hb. apply (Permutation_in _ (Array_sort_perm l)) in Hb.
    apply Hcmp; [now left | now right].
  - apply IH. intros u v Hu Hv. apply Hcmp; now right.
Qed.
End SortFacts.

Lemma filter_split_perm {A} (f : A -> bool) l :
  Permutation (filter f l ++ filter (fun a => negb (f a)) l) l.
Proof.
  induction l as [|a l IH]; simpl; [reflexivity|].
  destruct (f a); simpl.
  - now constructor.
  - rewrite <- Permutation_middle. now constructor.
Qed.

Lemma Object_entries_perm o : Permutation (Object_entries o) o.
Proof.
  unfold Object_entries. rewrite Array_sort_perm. apply filter_split_perm.
Qed.

(** [dateMap[date]], for [date] among [Object.keys(dateMap)], is the value
    of that entry. *)
Lemma Object_entries_get o e :
  NoDup (map fst o) -> In e (Object_entries o) -> obj_get o (fst e) = Some (snd e).
Proof.
  intros Hnd Hin. apply obj_get_In; [exact Hnd|].
  apply (Permutation_in _ (Object_entries_perm o)) in Hin. now destruct e.
Qed.

(* ------------------------------------------------------------------ *)
(** ** The aggregator *)

Lemma fillDateMap_points nds : fillDateMap nds = fold_left addPoint (all_points nds) [].
Proof.
  unfold fillDateMap, all_points. generalize (@nil (string * Q)).
  induction nds as [|s nds IH]; intros m; simpl; [reflexivity|].
  now rewrite fold_left_app, IH.
Qed.

Lemma addPoints_keys pts : forall m k,
  In k (map fst (fold_left addPoint pts m)) <-> In k (map fst m) \/ In k (map Norm.x pts).
Proof.
  induction pts as [|p pts IH]; intros m k; simpl; [intuition|].
  rewrite IH. unfold addPoint at 1. rewrite obj_set_keys. intuition.
Qed.

Lemma addPoints_NoDup pts : forall m,
  NoDup (map fst m) -> NoDup (map fst (fold_left addPoint pts m)).
Proof.
  induction pts as [|p pts IH]; intros m H; simpl; [exact H|].
  apply IH. now apply obj_set_NoDup.
Qed.

(** What [dateMap] holds on [k] after the loops: what it held, plus the
    values of the points dated [k]. *)
Lemma addPoints_total pts : forall m k,
  (or_zero (obj_get (fold_left addPoint pts m) k)
   == or_zero (obj_get m k) + sum_on k pts)%Q.
Proof.
  induction pts as [|p pts IH]; intros m k; simpl; [ring|].
  rewrite IH. unfold addPoint at 1. rewrite obj_get_set.
  destruct (String.eqb_spec (Norm.x p) k) as [->|N].
  - rewrite or_zero_Some. ring.
  - reflexivity.
Qed.


Lemma sum_on_absent k l : existsb (fun p => (Norm.x p =? k)%string) l = false -> sum_on k l = 0%Q.
Proof.
  induction l as [|p l IH]; simpl; [reflexivity|].
  destruct (Norm.x p =? k)%string; simpl; [discriminate | exact IH].
Qed.



Section AggregateFacts.
Context {host : Host}.

Lemma createAggregateData_perm nds :
  Permutation (createAggregateData nds)
              (map (fun e => {| Agg.x := fst e; Agg.y := snd e |}) (fillDateMap nds)).
Proof.
  unfold createAggregateData. rewrite Array_sort_perm.
  apply Permutation_map, Object_entries_perm.
Qed.

Lemma createAggregateData_keys nds :
  Permutation (map Agg.x (createAggregateData nds)) (map fst (fillDateMap nds)).
Proof.
  rewrite createAggregateData_perm, map_map. reflexivity.
Qed.

Lemma fillDateMap_NoDup nds : NoDup (map fst (fillDateMap nds)).
Proof. rewrite fillDateMap_points. apply addPoints_NoDup. constructor. Qed.

Lemma createAggregateData_NoDup nds : NoDup (map Agg.x (createAggregateData nds)).
Proof.
  apply (Permutation_NoDup (l := map fst (fillDateMap nds))).
  - symmetry. apply createAggregateData_keys.
  - apply fillDateMap_NoDup.
Qed.

Lemma createAggregateData_dates nds k :
  In k (map Agg.x (createAggregateData nds)) <-> In k (map Norm.x (all_points nds)).
Proof.
  split; intros H.
  - apply (Permutation_in _ (createAggregateData_keys nds)) in H.
    rewrite fillDateMap_points in H. apply addPoints_keys in H as [[]|H]. exact H.
  - apply (Permutation_in _ (Permutation_sym (createAggregateData_keys nds))).
    rewrite fillDateMap_points. apply addPoints_keys. now right.
Qed.

Lemma createAggregateData_value nds pt :
  In pt (createAggregateData nds) ->
  (Agg.y pt == sum_on (Agg.x pt) (all_points nds))%Q.
Proof.
  intros H. apply (Permutation_in _ (createAggregateData_perm nds)) in H.
  apply in_map_iff in H as ([k v] & <- & Hin). simpl.
  apply obj_get_In in Hin; [|apply fillDateMap_NoDup].
  pose proof (addPoints_total (all_points nds) [] k) as T.
  rewrite <- fillDateMap_points, Hin, or_zero_Some in T.
  rewrite T. simpl. ring.
Qed.

End AggregateFacts.

Lemma StronglySorted_weaken {A} (R R' : A -> A -> Prop) l :
  (forall a b, In a l -> In b l -> R a b -> R' a b) ->
  StronglySorted R l -> StronglySorted R' l.
Proof.
  induction l as [|a l IH]; intros Himp Hs; [constructor|].
  inversion Hs as [|? ? Hs' Hall]; subst. constructor.
  - apply IH; [|exact Hs']. intros u v Hu Hv. apply Himp; now right.
  - rewrite Forall_forall in Hall |- *. intros u Hu.
    apply Himp; [now left | now right | now apply Hall].
Qed.

Lemma in_all_points nds p :
  In p (all_points nds) <-> exists s, In s nds /\ In p (Norm.data s).
Proof. unfold all_points. apply in_flat_map. Qed.

(** In a series whose dates are distinct, the sum on the date of a point is
    the value of that point. *)
Lemma sum_on_unique pts p :
  NoDup (map Norm.x pts) -> In p pts -> (sum_on (Norm.x p) pts == Norm.y p)%Q.
Proof.
  induction pts as [|q pts IH]; simpl; intros Hnd Hin; [contradiction|].
  inversion Hnd as [|? ? Hnin Hnd']; subst.
  destruct Hin as [->|Hin].
  - rewrite String.eqb_refl, sum_on_absent; [ring|].
    destruct (existsb _ pts) eqn:B; [|reflexivity].
    apply existsb_exists in B as (r & Hr & E). apply String.eqb_eq in E.
    exfalso. apply Hnin. rewrite <- E. now apply in_map.
  - destruct (String.eqb_spec (Norm.x q) (Norm.x p)) as [E|N]; [|now apply IH].
    exfalso. apply Hnin. rewrite E. now apply in_map.
Qed.


(* ------------------------------------------------------------------ *)
(** ** The handler and the state *)

Section HandlerFacts.
Context {host : Host}.

Lemma set_chart_twice charts i u v :
  set_chart (set_chart charts i u) i v = set_chart charts i v.
Proof.
  revert i. induction charts as [|c rest IH]; intros [|i]; simpl; try reflexivity.
  now rewrite IH.
Qed.

Lemma set_chart_comm charts i j u v :
  i <> j ->
  set_chart (set_chart charts i u) j v = set_chart (set_chart charts j v) i u.
Proof.
  revert i j. induction charts as [|c rest IH]; intros [|i] [|j] N; simpl;
    try reflexivity; try congruence.
  rewrite IH; [reflexivity | congruence].
Qed.

(** The loop from [index] on leaves the charts below [index] alone. *)
Lemma filterLoop_set_chart sel originals :
  forall index charts acc i v,
    (i < index)%nat ->
    fst (filterLoop sel index originals (set_chart charts i v) acc)
    = set_chart (fst (filterLoop sel index originals charts acc)) i v.
Proof.
  induction originals as [|d rest IH]; intros index charts acc i v Hlt; simpl;
    [reflexivity|].
  rewrite set_chart_comm by lia. apply IH. lia.
Qed.

(** What an earlier run of the loop left in the charts is overwritten. *)
Lemma filterLoop_fst_twice sel sel' originals :
  forall index charts acc acc',
    fst (filterLoop sel index originals
                    (fst (filterLoop sel' index originals charts acc')) acc)
    = fst (filterLoop sel index originals charts acc).
Proof.
  induction originals as [|d rest IH]; intros index charts acc acc'; simpl;
    [reflexivity|].
  rewrite (filterLoop_set_chart sel') by lia.
  rewrite set_chart_twice.
  rewrite !(filterLoop_set_chart sel) by lia.
  f_equal. apply IH.
Qed.

Lemma handleFilterChange_chartInstances sel st :
  chartInstances (handleFilterChange sel st)
  = fst (filterLoop sel 0 (datasets (allData st)) (chartInstances st) []).
Proof. open_handler sel st. reflexivity. Qed.

Lemma AppState_ext (s t : AppState) :
  allData s = allData t -> chartInstances s = chartInstances t ->
  summaryChart s = summaryChart t -> aggregateChart s = aggregateChart t ->
  s = t.
Proof. destruct s, t; simpl; intros; subst; reflexivity. Qed.
End HandlerFacts.

(** C8.  [handleFilterChange] leaves [allData], hence every source series
    and point, as it was; the summary and aggregate series it installs are
    computed from the source series under the selection; and a run after any
    earlier run gives the state that the run alone gives. *)
Theorem recomputation_leaves_source_pristine {host : Host} sel st :
  allData (handleFilterChange sel st) = allData st /\
  summaryChart (handleFilterChange sel st)
  = normalizeAndFormatData (map (updatedDataset sel) (datasets (allData st))) /\
  aggregateChart (handleFilterChange sel st)
  = createAggregateData
      (normalizeAndFormatData (map (updatedDataset sel) (datasets (allData st)))) /\
  (forall sel',
      handleFilterChange sel (handleFilterChange sel' st) = handleFilterChange sel st).
Proof.
  split; [apply handleFilterChange_allData|].
  split; [apply handleFilterChange_summaryChart|].
  split; [apply handleFilterChange_aggregateChart|].
  intros sel'. apply AppState_ext.
  - now rewrite !handleFilterChange_allData.
  - rewrite !handleFilterChange_chartInstances, handleFilterChange_allData.
    apply filterLoop_fst_twice.
  - now rewrite !handleFilterChange_summaryChart, handleFilterChange_allData.
  - now rewrite !handleFilterChange_aggregateChart, handleFilterChange_allData.
Qed.

(* ------------------------------------------------------------------ *)
(** ** The properties on the series of the specification *)

(** The scenario of the specification: values 10, 30, 20 become 0, 100,
    50. *)
Example scenario_normalized :
  Forall2 Qeq
          (flat_map (fun s => map Norm.y (Norm.data s))
                    (normalizeAndFormatData [scenario_series]))
          [0; 100; 50]%Q.
Proof. repeat constructor. Qed.

(** Five hours west of UTC the first instant of 2023 is local December
    2022: year "2023" keeps two points, quarter "1" none. *)
Example scenario_filters_west :
  filterData (host := west_host)
     {| selectedYear := "2023"; selectedQuarter := "all"; selectedMonth := "all" |}
     scenario_series
  = [ {| date := "2023-06-01"; value := 30 |}; {| date := "2023-12-01"; value := 20 |} ]
  /\ filterData (host := west_host)
       {| selectedYear := "all"; selectedQuarter := "1"; selectedMonth := "all" |}
       scenario_series
     = [].
Proof. split; reflexivity. Qed.

Lemma identical_values_normalize_to_50_witness :
  data single_point_series <> [] /\
  exists out,
    nth_error (normalizeAndFormatData [scenario_series; single_point_series]) 1
    = Some out /\
    List.length (Norm.data out) = List.length (data single_point_series) /\
    Forall (fun npt => Norm.y npt = 50%Q) (Norm.data out).
Proof.
  assert (Hne : data single_point_series <> []) by discriminate.
  split; [exact Hne|].
  apply (identical_values_normalize_to_50
           [scenario_series; single_point_series] 1 single_point_series).
  - reflexivity.
  - exact Hne.
  - intros p q [<-|[]] [<-|[]]. reflexivity.
Defined.

Section OnUTC.
#[local] Existing Instance utc_host.

(** In a browser on UTC, year "2023" keeps the three points and quarter "1"
    the January point only. *)
Example scenario_filters_utc :
  filterData
     {| selectedYear := "2023"; selectedQuarter := "all"; selectedMonth := "all" |}
     scenario_series
  = data scenario_series
  /\ filterData
       {| selectedYear := "all"; selectedQuarter := "1"; selectedMonth := "all" |}
       scenario_series
     = [ {| date := "2023-01-01"; value := 10 |} ].
Proof. split; reflexivity. Qed.

(** Two series with a point on the same date, of normalised values 0 and
    100: the aggregate has 100 on that date. *)
Example scenario_aggregate :
  same_value
    (value_on "2023-01-01"
       (createAggregateData
          [ {| Norm.label := "a"; Norm.color := None;
               Norm.data := [ {| Norm.x := "2023-01-01"; Norm.y := 0;
                                 Norm.originalValue := 10 |} ] |};
            {| Norm.label := "b"; Norm.color := None;
               Norm.data := [ {| Norm.x := "2023-01-01"; Norm.y := 100;
                                 Norm.originalValue := 30 |} ] |} ]))
    (Some 100%Q).
Proof. reflexivity. Qed.

(** The order of the aggregate is that of the instants, not of the
    strings: the year 10000 comes last, though its string comes first. *)
Example aggregate_order_is_chronological :
  map Agg.x (createAggregateData (normalizeAndFormatData [far_series; scenario_series]))
  = ["2023-01-01"; "2023-06-01"; "2023-12-01"; "+010000-01-01"]
  /\ String.compare "+010000-01-01" "2023-01-01" = Lt.
Proof. split; reflexivity. Qed.

(** Months 0 and 11 selected: the January and December points stay, the
    June point goes. *)
Lemma month_pair_filter_witness :
  let sel := {| selectedYear := "all"; selectedQuarter := "all"; selectedMonth := "0-11" |} in
  (0 <= 0 <= 11 /\ 0 <= 11 <= 11) /\
  filterData sel scenario_series
  = [ {| date := "2023-01-01"; value := 10 |}; {| date := "2023-12-01"; value := 20 |} ]
  /\ ~ In {| date := "2023-06-01"; value := 30 |} (filterData sel scenario_series).
Proof.
  assert (Ha : 0 <= 0 <= 11) by lia.
  assert (Hb : 0 <= 11 <= 11) by lia.
  split; [now split|].
  pose proof (month_pair_filter_matches_either_endpoint
                {| selectedYear := "all"; selectedQuarter := "all"; selectedMonth := "0-11" |}
                scenario_series 0 11 Ha Hb eq_refl) as [_ [Hall [_ Hbetween]]].
  split.
  - rewrite (Hall eq_refl eq_refl). reflexivity.
  - apply (Hbetween {| date := "2023-06-01"; value := 30 |} 5); [reflexivity | lia].
Defined.

Lemma empty_series_normalizes_to_empty_witness :
  (exists out,
      nth_error (normalizeAndFormatData [scenario_series; empty_series]) 1 = Some out /\
      Norm.label out = label empty_series /\
      Norm.data out = []) /\
  (let sel := {| selectedYear := "1999"; selectedQuarter := "all"; selectedMonth := "all" |} in
   filterData sel scenario_series = [] /\
   exists out,
     nth_error (summaryChart (handleFilterChange sel (init loaded_document))) 0
     = Some out /\
     Norm.label out = label scenario_series /\
     Norm.data out = []).
Proof.
  split.
  - apply (proj1 empty_series_normalizes_to_empty
                 [scenario_series; empty_series] 1%nat empty_series); reflexivity.
  - split; [reflexivity|].
    apply (proj2 empty_series_normalizes_to_empty utc_host
                 {| selectedYear := "1999"; selectedQuarter := "all"; selectedMonth := "all" |}
                 (init loaded_document) 0%nat scenario_series); reflexivity.
Defined.

(** Quarter 2 selected: of the three points the June point stays. *)
Lemma quarter_derivation_and_filter_witness :
  let sel := {| selectedYear := "all"; selectedQuarter := "2"; selectedMonth := "all" |} in
  getQuarter (Date_new "2023-06-01") = Some 2 /\
  1 <= 2 <= 4 /\
  filterData sel scenario_series = [ {| date := "2023-06-01"; value := 30 |} ].
Proof.
  assert (Hq : 1 <= 2 <= 4) by lia.
  split; [|split; [exact Hq|]].
  - apply (proj1 (proj2 (proj2 quarter_derivation_and_filter))).
    reflexivity.
  - pose proof (proj2 (proj2 (proj2 (proj2 quarter_derivation_and_filter)))
                  {| selectedYear := "all"; selectedQuarter := "2"; selectedMonth := "all" |}
                  scenario_series 2 Hq eq_refl) as [_ [Hall _]].
    rewrite (Hall eq_refl eq_refl). reflexivity.
Defined.


End OnUTC.

(* ------------------------------------------------------------------ *)
(** ** More on the filter engine *)

Lemma same_value_zero_eq a b : same_value_zero a b = true <-> a = b.
Proof.
  destruct a as [m|], b as [n|]; simpl; try (split; [discriminate | congruence]).
  - rewrite Z.eqb_eq. split; congruence.
  - split; reflexivity.
Qed.

(** Comparing the decimal forms is comparing the numbers, [NaN] being the
    form of [NaN] only. *)
Lemma Number_toString_same n m :
  (Number_toString n =? Number_toString m)%string = same_value_zero n m.
Proof.
  destruct (String.eqb_spec (Number_toString n) (Number_toString m)) as [E|N].
  - apply Number_toString_inj in E. symmetry. now apply same_value_zero_eq.
  - destruct (same_value_zero n m) eqn:B; [|reflexivity].
    apply same_value_zero_eq in B. now subst.
Qed.

Lemma Number_toString_never_all n : (Number_toString n =? "all")%string = false.
Proof. destruct n; [apply Number_toString_not_all | reflexivity]. Qed.

Section StageFacts.
Context {host : Host}.

Lemma yearTest_selected sel n point :
  selectedYear sel = Number_toString n ->
  yearTest sel point = same_value_zero (getFullYear (Date_new (date point))) n.
Proof.
  intros E. unfold yearTest.
  now rewrite E, Number_toString_never_all, Number_toString_same.
Qed.

Lemma quarterTest_selected sel q point :
  selectedQuarter sel = Number_toString (Some q) ->
  quarterTest sel point = strict_eq (getQuarter (Date_new (date point))) (Some q).
Proof.
  intros E. unfold quarterTest.
  now rewrite E, Number_toString_not_all, Number_toString_eqb.
Qed.

Lemma monthTest_pair sel a b point :
  0 <= a <= 11 -> 0 <= b <= 11 ->
  selectedMonth sel = (Number_toString (Some a) ++ "-" ++ Number_toString (Some b))%string ->
  monthTest sel point
  = (strict_eq (getMonth (Date_new (date point))) (Some a)
     || strict_eq (getMonth (Date_new (date point))) (Some b)).
Proof.
  intros Ha Hb E. unfold monthTest.
  rewrite E, month_pair_not_all, month_pair_parts by assumption. reflexivity.
Qed.

(** A point is kept when it is a point of the series that passes the three
    tests. *)
Lemma filterData_In sel dataset point :
  In point (filterData sel dataset) <->
  In point (data dataset)
  /\ yearTest sel point = true /\ quarterTest sel point = true
  /\ monthTest sel point = true.
Proof. rewrite filterData_stages, !filter_In. tauto. Qed.

Lemma filter_nil_iff {A} (f : A -> bool) l :
  filter f l = [] <-> forall a, In a l -> f a = false.
Proof.
  induction l as [|a l IH]; simpl; [tauto|].
  destruct (f a) eqn:B.
  - split; [discriminate|]. intros H. rewrite (H a) in B by now left. discriminate.
  - rewrite IH. split.
    + intros H b [<-|Hb]; auto.
    + intros H b Hb. apply H. now right.
Qed.
End StageFacts.

(** X1.  With a year selected, the filter keeps exactly the points of the
    series whose date is of that year in local time and which the quarter
    and month selectors keep, in their order: all the points of that year of
    the series when those two selectors are on "all".  With "NaN" selected
    the points in question are those whose date is invalid. *)
Theorem year_filter_keeps_the_year {host : Host} sel dataset n :
  selectedYear sel = Number_toString n ->
  filterData sel dataset
  = filter (fun point =>
              same_value_zero (getFullYear (Date_new (date point))) n
              && quarterTest sel point && monthTest sel point)
           (data dataset)
  /\ (selectedQuarter sel = "all" -> selectedMonth sel = "all" ->
      filterData sel dataset
      = filter (fun point => same_value_zero (getFullYear (Date_new (date point))) n)
               (data dataset))
  /\ (forall point,
         In point (filterData sel dataset) <->
         In point (data dataset)
         /\ getFullYear (Date_new (date point)) = n
         /\ In point (filterData (all_years sel) dataset)).
Proof.
  intros E.
  assert (Eabs : filterData sel dataset
                 = filter (fun point =>
                             same_value_zero (getFullYear (Date_new (date point))) n
                             && quarterTest sel point && monthTest sel point)
                          (data dataset)).
  { rewrite filterData_stages, !filter_filter. apply filter_ext.
    intros point. now rewrite (yearTest_selected sel n), andb_assoc. }
  split; [exact Eabs|]. split.
  - intros Eq Em. rewrite Eabs. apply filter_ext. intros point.
    unfold quarterTest, monthTest. rewrite Eq, Em. simpl. now rewrite !andb_true_r.
  - intros point. rewrite Eabs, filterData_stages, !filter_In.
    rewrite !andb_true_iff, same_value_zero_eq.
    unfold yearTest at 1. cbn [all_years selectedYear]. simpl orb.
    unfold quarterTest, monthTest. cbn [all_years selectedQuarter selectedMonth].
    tauto.
Qed.

(** X2.  The filter only removes points: the result is the points of the
    series that pass the test of each selector, in their order; it has no
    more points than the series; and with the three selectors on "all" it is
    the series' points unchanged. *)
Theorem filters_only_remove_points {host : Host} sel dataset :
  filterData sel dataset
  = filter (fun p => yearTest sel p && quarterTest sel p && monthTest sel p)
           (data dataset)
  /\ (List.length (filterData sel dataset) <= List.length (data dataset))%nat
  /\ (forall point, In point (filterData sel dataset) -> In point (data dataset))
  /\ filterData no_filter dataset = data dataset.
Proof.
  assert (E : filterData sel dataset
              = filter (fun p => yearTest sel p && quarterTest sel p && monthTest sel p)
                       (data dataset))
    by (rewrite filterData_stages, !filter_filter; apply filter_ext;
        intros p; now rewrite andb_assoc).
  split; [exact E|]. split; [|split].
  - rewrite E. apply filter_length_le.
  - intros point H. rewrite E in H. now apply filter_In in H.
  - rewrite filterData_stages.
    rewrite !(filter_ext _ (fun _ => true)) by reflexivity.
    now rewrite !filter_true.
Qed.

(** X3.  A quarter and a month pair that has no month in that quarter:
    no point is kept, whatever the series and the year selected. *)
Theorem quarter_and_months_outside_it_keep_nothing {host : Host} sel dataset q a b :
  0 <= a <= 11 -> 0 <= b <= 11 ->
  selectedQuarter sel = Number_toString (Some q) ->
  selectedMonth sel = (Number_toString (Some a) ++ "-" ++ Number_toString (Some b))%string ->
  a / 3 + 1 <> q -> b / 3 + 1 <> q ->
  filterData sel dataset = [].
Proof.
  intros Ha Hb Eq Em Na Nb.
  destruct (filterData sel dataset) as [|point rest] eqn:E; [reflexivity|].
  assert (Hin : In point (filterData sel dataset)) by (rewrite E; now left).
  apply filterData_In in Hin as (_ & _ & Hq & Hm).
  rewrite (quarterTest_selected sel q) in Hq by assumption.
  rewrite (monthTest_pair sel a b) in Hm by assumption.
  unfold getQuarter in Hq.
  destruct (getMonth (Date_new (date point))) as [m|]; simpl in Hq, Hm; [|discriminate].
  apply Z.eqb_eq in Hq.
  apply orb_true_iff in Hm as [Hm|Hm]; apply Z.eqb_eq in Hm; subst m; contradiction.
Qed.

(** X4.  A point whose date is not a valid date is removed as soon as a
    month pair is selected, whatever the value of the selector, and as soon
    as a quarter or a year that is a number is selected. *)
Theorem invalid_date_point_is_filtered_out {host : Host} sel dataset point :
  Date_new (date point) = None ->
  (selectedMonth sel <> "all" -> ~ In point (filterData sel dataset))
  /\ (forall q, selectedQuarter sel = Number_toString (Some q) ->
                ~ In point (filterData sel dataset))
  /\ (forall y, selectedYear sel = Number_toString (Some y) ->
                ~ In point (filterData sel dataset)).
Proof.
  intros Hbad. split; [|split].
  - intros Hsel Hin. apply filterData_In in Hin as (_ & _ & _ & Hm).
    unfold monthTest in Hm. rewrite Hbad in Hm. simpl in Hm.
    apply String.eqb_neq in Hsel. rewrite Hsel in Hm. discriminate.
  - intros q Eq Hin. apply filterData_In in Hin as (_ & _ & Hq & _).
    rewrite (quarterTest_selected sel q) in Hq by assumption.
    unfold getQuarter in Hq. rewrite Hbad in Hq. discriminate.
  - intros y Ey Hin. apply filterData_In in Hin as (_ & Hy & _).
    rewrite (yearTest_selected sel (Some y)) in Hy by assumption.
    rewrite Hbad in Hy. discriminate.
Qed.

(* ------------------------------------------------------------------ *)
(** ** The year selector *)

Lemma Set_add_In years year y : In y (Set_add years year) <-> In y years \/ y = year.
Proof.
  unfold Set_add. destruct (existsb _ years) eqn:B.
  - split; [now left|]. intros [H| ->]; [exact H|].
    apply existsb_exists in B as (z & Hz & E).
    apply same_value_zero_eq in E. now subst.
  - rewrite in_app_iff. simpl. intuition.
Qed.

Lemma Set_add_NoDup years year : NoDup years -> NoDup (Set_add years year).
Proof.
  intros H. unfold Set_add. destruct (existsb _ years) eqn:B; [exact H|].
  apply NoDup_app; [exact H | constructor; [intros [] | constructor] |].
  intros y Hy [E|[]]. subst y.
  assert (Hex : existsb (fun z => same_value_zero z year) years = true).
  { apply existsb_exists. exists year. split; [exact Hy|]. now apply same_value_zero_eq. }
  rewrite Hex in B. discriminate.
Qed.

Lemma fold_append_options (years : list (option Z)) : forall yearFilter,
  fold_left
    (fun yearFilter year =>
       yearFilter ++ [ {| Html.value := Number_toString year;
                          Html.textContent := Number_toString year |} ])
    years yearFilter
  = yearFilter
    ++ map (fun year => {| Html.value := Number_toString year;
                           Html.textContent := Number_toString year |}) years.
Proof.
  induction years as [|y years IH]; intros yearFilter; simpl.
  - now rewrite app_nil_r.
  - rewrite IH, <- app_assoc. reflexivity.
Qed.

Lemma NoDup_map_injective {A B} (f : A -> B) l :
  (forall a b, f a = f b -> a = b) -> NoDup l -> NoDup (map f l).
Proof.
  intros Hinj. induction 1 as [|a l Hnin Hnd IH]; simpl; constructor; [|exact IH].
  intros Hin. apply in_map_iff in Hin as (b & E & Hb).
  apply Hinj in E. now subst.
Qed.

Lemma StronglySorted_NoDup_strict {A} (R : A -> A -> Prop) l :
  StronglySorted R l -> NoDup l -> StronglySorted (fun a b => R a b /\ a <> b) l.
Proof.
  induction 1 as [|a l Hs IH Hall]; intros Hnd; [constructor|].
  inversion Hnd as [|? ? Hnin Hnd']; subst. constructor; [now apply IH|].
  rewrite Forall_forall in Hall |- *. intros b Hb. split; [now apply Hall|].
  intros ->. contradiction.
Qed.

Section YearSelectorFacts.
Context {host : Host}.

Lemma collectYears_fold datasets :
  collectYears datasets
  = fold_left Set_add
              (map (fun point => getFullYear (Date_new (date point)))
                   (flat_map data datasets)) [].
Proof.
  unfold collectYears. generalize (@nil (option Z)).
  induction datasets as [|d datasets IH]; intros years; simpl; [reflexivity|].
  rewrite map_app, fold_left_app, IH. f_equal.
  generalize years. induction (data d) as [|p ps IHp]; intros ys; simpl;
    [reflexivity | apply IHp].
Qed.

Lemma fold_Set_add_In ys : forall years y,
  In y (fold_left Set_add ys years) <-> In y years \/ In y ys.
Proof.
  induction ys as [|z ys IH]; intros years y; simpl; [tauto|].
  rewrite IH, Set_add_In. intuition.
Qed.

Lemma fold_Set_add_NoDup ys : forall years,
  NoDup years -> NoDup (fold_left Set_add ys years).
Proof.
  induction ys as [|z ys IH]; intros years H; simpl; [exact H|].
  now apply IH, Set_add_NoDup.
Qed.

Lemma collectYears_In datasets y :
  In y (collectYears datasets) <->
  exists dataset point,
    In dataset datasets /\ In point (data dataset)
    /\ getFullYear (Date_new (date point)) = y.
Proof.
  rewrite collectYears_fold, fold_Set_add_In, in_map_iff. split.
  - intros [[]|(point & E & Hp)]. apply in_flat_map in Hp as (d & Hd & Hp). eauto.
  - intros (d & point & Hd & Hp & E). right. exists point. split; [exact E|].
    apply in_flat_map. eauto.
Qed.

Lemma sortedYears_In datasets y :
  In y (sortedYears datasets) <-> In y (collectYears datasets).
Proof.
  unfold sortedYears. split; apply Permutation_in;
    [|symmetry]; apply Array_sort_perm.
Qed.

Lemma sortedYears_NoDup datasets : NoDup (sortedYears datasets).
Proof.
  apply (Permutation_NoDup (l := collectYears datasets)).
  - symmetry. apply Array_sort_perm.
  - rewrite collectYears_fold. apply fold_Set_add_NoDup. constructor.
Qed.
End YearSelectorFacts.

(** X5.  [populateYearFilter] appends to the selector one option per year
    in which some series has a point, and no other; the options are
    distinct, value and text being the year in decimal ("NaN" for the points
    of invalid date); and, every date being valid, they come in strictly
    descending order of the year. *)
Theorem year_selector_offers_the_years_of_the_data {host : Host} datasets yearFilter :
  populateYearFilter datasets yearFilter
  = yearFilter
    ++ map (fun year => {| Html.value := Number_toString year;
                           Html.textContent := Number_toString year |})
           (sortedYears datasets)
  /\ NoDup (map Number_toString (sortedYears datasets))
  /\ (forall y, In y (sortedYears datasets) <->
                exists dataset point,
                  In dataset datasets /\ In point (data dataset)
                  /\ getFullYear (Date_new (date point)) = y)
  /\ ((forall dataset point, In dataset datasets -> In point (data dataset) ->
                             Date_new (date point) <> None) ->
      StronglySorted (fun a b => match a, b with
                                 | Some m, Some n => n < m
                                 | _, _ => False
                                 end)
                     (sortedYears datasets)).
Proof.
  split; [apply fold_append_options|]. split; [|split].
  - apply NoDup_map_injective; [apply Number_toString_inj | apply sortedYears_NoDup].
  - intros y. rewrite sortedYears_In. apply collectYears_In.
  - intros Hvalid.
    assert (Hsome : forall y, In y (collectYears datasets) -> y <> None).
    { intros y Hy ->. apply collectYears_In in Hy as (d & p & Hd & Hp & E).
      specialize (Hvalid d p Hd Hp).
      destruct (Date_new (date p)); [discriminate | congruence]. }
    set (key := fun y : option Z => match y with Some m => - m | None => 0 end).
    assert (Hs : StronglySorted (fun u v => key u <= key v) (sortedYears datasets)).
    { unfold sortedYears. apply Array_sort_sorted. intros a b Ha Hb.
      apply Hsome in Ha. apply Hsome in Hb.
      destruct a as [m|], b as [n|]; try congruence.
      simpl. f_equal. lia. }
    apply StronglySorted_NoDup_strict in Hs; [|apply sortedYears_NoDup].
    eapply StronglySorted_weaken; [|exact Hs].
    intros a b Ha Hb [Hle Hne].
    apply sortedYears_In, Hsome in Ha. apply sortedYears_In, Hsome in Hb.
    destruct a as [m|], b as [n|]; try congruence.
    simpl in Hle. assert (m <> n) by congruence. lia.
Qed.

(** X6.  The selector offers exactly the years that have data: selecting
    an offered year keeps a point of some series, and selecting the decimal
    form of a year that is not offered keeps no point of any series. *)
Theorem offered_year_keeps_a_point {host : Host} datasets y :
  (In (Some y) (sortedYears datasets) ->
   exists dataset,
     In dataset datasets
     /\ filterData {| selectedYear := Number_toString (Some y);
                      selectedQuarter := "all"; selectedMonth := "all" |} dataset
        <> [])
  /\ (~ In (Some y) (sortedYears datasets) ->
      forall dataset,
        In dataset datasets ->
        filterData {| selectedYear := Number_toString (Some y);
                      selectedQuarter := "all"; selectedMonth := "all" |} dataset
        = []).
Proof.
  set (sel := {| selectedYear := Number_toString (Some y);
                 selectedQuarter := "all"; selectedMonth := "all" |}).
  assert (Hkeep : forall dataset point,
             In point (filterData sel dataset) <->
             In point (data dataset)
             /\ getFullYear (Date_new (date point)) = Some y).
  { intros dataset point. rewrite filterData_In.
    rewrite (yearTest_selected sel (Some y)) by reflexivity.
    rewrite same_value_zero_eq.
    unfold quarterTest, monthTest. simpl. tauto. }
  split.
  - intros Hin. apply sortedYears_In, collectYears_In in Hin as (d & p & Hd & Hp & E).
    exists d. split; [exact Hd|]. intros Hnil.
    assert (H : In p (filterData sel d)) by (apply Hkeep; auto).
    rewrite Hnil in H. destruct H.
  - intros Hnot dataset Hd.
    destruct (filterData sel dataset) as [|p rest] eqn:E; [reflexivity|].
    assert (H : In p (filterData sel dataset)) by (rewrite E; now left).
    apply Hkeep in H as [Hp Ey]. exfalso. apply Hnot.
    apply sortedYears_In, collectYears_In. eauto.
Qed.

(* ------------------------------------------------------------------ *)
(** ** The event annotations *)

Lemma map_from_length {A B} (f : A -> nat -> B) l : forall index,
  List.length (map_from f index l) = List.length l.
Proof. induction l as [|a l IH]; intros index; simpl; [reflexivity | now rewrite IH]. Qed.

Lemma map_from_nth {A B} (f : A -> nat -> B) l : forall index n,
  nth_error (map_from f index l) n
  = option_map (fun a => f a (index + n)%nat) (nth_error l n).
Proof.
  induction l as [|a l IH]; intros index [|n]; simpl; try reflexivity.
  - now rewrite Nat.add_0_r.
  - rewrite IH. now rewrite Nat.add_succ_r.
Qed.

Lemma generateAnnotations_nth events i :
  nth_error (generateAnnotations events) i
  = option_map (fun event => annotationOf event i) (nth_error events i).
Proof. unfold generateAnnotations. now rewrite map_from_nth. Qed.

(** The colours of an annotation are those of its index modulo 6. *)
Lemma annotationOf_colors event event' i :
  Annotation.backgroundColor (annotationOf event i)
  = Annotation.backgroundColor (annotationOf event' (i mod 6)%nat)
  /\ Annotation.borderColor (annotationOf event i)
     = Annotation.borderColor (annotationOf event' (i mod 6)%nat)
  /\ Annotation.color (Annotation.label (annotationOf event i))
     = Annotation.color (Annotation.label (annotationOf event' (i mod 6)%nat)).
Proof.
  unfold annotationOf. cbn [Annotation.backgroundColor Annotation.borderColor
                            Annotation.color Annotation.label].
  change (List.length eventHues) with 6%nat.
  rewrite Nat.Div0.mod_mod. auto.
Qed.

(** X7.  [generateAnnotations] makes one box per event, in the order of
    the events (none for no event): from the start date to the end date of
    the event, labelled with its label, the label of the box of index [i]
    shifted by [12 * i]. *)
Theorem annotations_follow_events events :
  List.length (generateAnnotations events) = List.length events
  /\ (forall i event,
         nth_error events i = Some event ->
         exists a,
           nth_error (generateAnnotations events) i = Some a
           /\ Annotation.type a = "box"
           /\ Annotation.xMin a = Event.startDate event
           /\ Annotation.xMax a = Event.endDate event
           /\ Annotation.content (Annotation.label a) = Event.label event
           /\ Annotation.yAdjust (Annotation.label a) = 12 * Z.of_nat i).
Proof.
  split; [apply map_from_length|].
  intros i event E. rewrite generateAnnotations_nth, E. simpl.
  eexists; split; [reflexivity|]. unfold annotationOf.
  cbn [Annotation.type Annotation.xMin Annotation.xMax Annotation.label
       Annotation.content Annotation.yAdjust].
  repeat split. apply Z.mul_comm.
Qed.

(** X8.  The colours of the boxes repeat with period 6, and within a
    period they differ: two boxes have the same background exactly when
    their indices are equal modulo 6, and then they have the same border
    and label colours too. *)
Theorem annotation_colors_cycle events i j a b :
  nth_error (generateAnnotations events) i = Some a ->
  nth_error (generateAnnotations events) j = Some b ->
  ((i mod 6 = j mod 6)%nat <->
   Annotation.backgroundColor a = Annotation.backgroundColor b)
  /\ ((i mod 6 = j mod 6)%nat ->
      Annotation.borderColor a = Annotation.borderColor b
      /\ Annotation.color (Annotation.label a) = Annotation.color (Annotation.label b)).
Proof.
  rewrite !generateAnnotations_nth.
  destruct (nth_error events i) as [ei|]; [|discriminate].
  destruct (nth_error events j) as [ej|]; [|discriminate].
  cbn [option_map]. intros [= <-] [= <-].
  destruct (annotationOf_colors ei ei i) as (Bi & Ri & Li).
  destruct (annotationOf_colors ej ei j) as (Bj & Rj & Lj).
  rewrite Bi, Ri, Li, Bj, Rj, Lj.
  assert (Hi : (i mod 6 < 6)%nat) by (apply Nat.mod_upper_bound; lia).
  assert (Hj : (j mod 6 < 6)%nat) by (apply Nat.mod_upper_bound; lia).
  revert Hi Hj. generalize (i mod 6)%nat (j mod 6)%nat. intros m n Hi Hj.
  split.
  - do 6 (destruct m as [|m]; [do 6 (destruct n as [|n];
            [split; intros H;
             first [reflexivity | discriminate H | vm_compute in H; discriminate H]|]);
          lia|]).
    lia.
  - intros ->. auto.
Qed.

(* ------------------------------------------------------------------ *)
(** ** The individual charts *)

Lemma prefixb_alpha c s :
  prefixb "1)" (String c s)
  = Ascii.eqb "1" c
    && match s with String c' _ => Ascii.eqb ")" c' | EmptyString => false end.
Proof.
  cbn [prefixb]. destruct s as [|c' s']; cbn [prefixb]; [reflexivity|].
  now rewrite andb_true_r.
Qed.

(** No "1)" starts at the head of [String c s] when [s] is empty or starts
    with a character other than ")". *)
Lemma prefixb_alpha_false c s :
  match s with String c' _ => Ascii.eqb c' ")" = false | EmptyString => True end ->
  prefixb "1)" (String c s) = false.
Proof.
  intros H. rewrite prefixb_alpha. destruct s as [|c' s'].
  - apply andb_false_r.
  - rewrite (Ascii.eqb_sym ")" c'), H. apply andb_false_r.
Qed.

Lemma replace_alpha_first pre post :
  has_char ")" pre = false ->
  replace "1)" "0.2" (pre ++ "1)" ++ post) = (pre ++ "0.2" ++ post)%string.
Proof.
  induction pre as [|c pre IH]; intros H; [reflexivity|].
  cbn [has_char] in H. apply orb_false_iff in H as [Hc Hpre].
  change (String c pre ++ "1)" ++ post)%string
    with (String c (pre ++ "1)" ++ post)%string).
  cbn [replace]. rewrite prefixb_alpha_false.
  - rewrite IH by assumption. reflexivity.
  - destruct pre as [|c' pre']; [reflexivity|].
    cbn [has_char] in Hpre. now apply orb_false_iff in Hpre as [Hc' _].
Qed.

Lemma replace_alpha_absent s : has_char ")" s = false -> replace "1)" "0.2" s = s.
Proof.
  induction s as [|c s IH]; intros H; [reflexivity|].
  cbn [has_char] in H. apply orb_false_iff in H as [Hc Hs].
  cbn [replace]. rewrite prefixb_alpha_false.
  - now rewrite IH.
  - destruct s as [|c' s']; [exact I|].
    cbn [has_char] in Hs. now apply orb_false_iff in Hs as [Hc' _].
Qed.

(** X9.  [formatDatasetsForChart] gives one series per dataset, in order:
    its points are the dates and the raw values, its border colour is the
    colour of the dataset, and its background colour is that colour with
    the first "1)" replaced by "0.2".  So a colour that ends in "1)", as
    "rgba(r, g, b, 1)" does, loses its closing parenthesis, and a colour
    without a parenthesis is kept as it is. *)
Theorem chart_series_colours_and_points datasets :
  Forall2
    (fun dataset series =>
       Raw.label series = label dataset
       /\ Raw.data series
          = map (fun point => {| Raw.x := date point; Raw.y := value point |})
                (data dataset)
       /\ Raw.borderColor series = color dataset
       /\ (forall pre post,
              color dataset = (pre ++ "1)" ++ post)%string ->
              has_char ")" pre = false ->
              Raw.backgroundColor series = (pre ++ "0.2" ++ post)%string)
       /\ (has_char ")" (color dataset) = false ->
           Raw.backgroundColor series = color dataset))
    datasets (formatDatasetsForChart datasets).
Proof.
  unfold formatDatasetsForChart.
  apply Forall2_map_r, Forall_forall. intros dataset _.
  cbn [Raw.label Raw.data Raw.borderColor Raw.backgroundColor].
  repeat split.
  - intros pre post E H. rewrite E. now apply replace_alpha_first.
  - apply replace_alpha_absent.
Qed.

Lemma set_chart_length {host : Host} charts : forall j v,
  List.length (set_chart charts j v) = List.length charts.
Proof.
  induction charts as [|c rest IH]; intros [|j] v; simpl; try reflexivity.
  now rewrite IH.
Qed.

Lemma set_chart_nth {host : Host} charts : forall j v i,
  nth_error (set_chart charts j v) i
  = if (i =? j)%nat
    then match nth_error charts i with Some _ => Some v | None => None end
    else nth_error charts i.
Proof.
  induction charts as [|c rest IH]; intros [|j] v [|i]; simpl; try reflexivity.
  - now destruct (i =? j)%nat.
  - apply IH.
Qed.

Section ChartFacts.
Context {host : Host}.

Lemma filterLoop_fst_length sel originals : forall index charts acc,
  List.length (fst (filterLoop sel index originals charts acc)) = List.length charts.
Proof.
  induction originals as [|d rest IH]; intros index charts acc; simpl; [reflexivity|].
  now rewrite IH, set_chart_length.
Qed.

(** The chart of index [i] after the loop from [index] on: updated when
    there are a dataset and a chart of that index, left alone otherwise. *)
Lemma filterLoop_fst_nth sel originals : forall index charts acc i,
  nth_error (fst (filterLoop sel index originals charts acc)) i
  = if (index <=? i)%nat
    then match nth_error originals (i - index), nth_error charts i with
         | Some d, Some _ => Some (formatDatasetsForChart [updatedDataset sel d])
         | _, c => c
         end
    else nth_error charts i.
Proof.
  induction originals as [|d rest IH]; intros index charts acc i.
  - simpl. destruct (index <=? i)%nat; [|reflexivity].
    now destruct (i - index)%nat.
  - cbn [filterLoop]. rewrite IH, set_chart_nth.
    destruct (Nat.leb_spec (S index) i) as [Hlt|Hge].
    + replace (i =? index)%nat with false by (symmetry; apply Nat.eqb_neq; lia).
      replace (index <=? i)%nat with true by (symmetry; apply Nat.leb_le; lia).
      replace (i - index)%nat with (S (i - S index)) by lia. reflexivity.
    + destruct (Nat.eqb_spec i index) as [->|N].
      * rewrite Nat.leb_refl, Nat.sub_diag. simpl.
        now destruct (nth_error charts index).
      * replace (index <=? i)%nat with false by (symmetry; apply Nat.leb_gt; lia).
        reflexivity.
Qed.

Lemma normalizeDataset_label dataset : Norm.label (normalizeDataset dataset) = label dataset.
Proof. unfold normalizeDataset. now destruct (data dataset). Qed.
End ChartFacts.

(** X10.  [handleFilterChange] keeps the number of charts; a chart that
    has a dataset of its index now holds that dataset filtered, with its raw
    values; a chart without one is left as it was; and the summary chart
    holds one series per dataset, under the labels of the datasets, in
    order. *)
Theorem handler_updates_each_chart {host : Host} sel st :
  List.length (chartInstances (handleFilterChange sel st))
  = List.length (chartInstances st)
  /\ (forall i dataset chart,
         nth_error (datasets (allData st)) i = Some dataset ->
         nth_error (chartInstances st) i = Some chart ->
         nth_error (chartInstances (handleFilterChange sel st)) i
         = Some (formatDatasetsForChart [updatedDataset sel dataset])
         /\ map Raw.data (formatDatasetsForChart [updatedDataset sel dataset])
            = [map (fun point => {| Raw.x := date point; Raw.y := value point |})
                   (filterData sel dataset)])
  /\ (forall i,
         nth_error (datasets (allData st)) i = None ->
         nth_error (chartInstances (handleFilterChange sel st)) i
         = nth_error (chartInstances st) i)
  /\ map Norm.label (summaryChart (handleFilterChange sel st))
     = map label (datasets (allData st)).
Proof.
  rewrite handleFilterChange_chartInstances, handleFilterChange_summaryChart.
  split; [apply filterLoop_fst_length|]. split; [|split].
  - intros i dataset chart Hd Hc. split; [|reflexivity].
    rewrite filterLoop_fst_nth. simpl. rewrite Nat.sub_0_r, Hd, Hc. reflexivity.
  - intros i Hd. rewrite filterLoop_fst_nth. simpl. now rewrite Nat.sub_0_r, Hd.
  - unfold normalizeAndFormatData. rewrite !map_map. apply map_ext.
    intros dataset. now rewrite normalizeDataset_label.
Qed.

Section HistoryFacts.
Context {host : Host}.

Lemma handleFilterChange_twice sel sel' st :
  handleFilterChange sel (handleFilterChange sel' st) = handleFilterChange sel st.
Proof.
  apply AppState_ext.
  - now rewrite !handleFilterChange_allData.
  - rewrite !handleFilterChange_chartInstances, handleFilterChange_allData.
    apply filterLoop_fst_twice.
  - now rewrite !handleFilterChange_summaryChart, handleFilterChange_allData.
  - now rewrite !handleFilterChange_aggregateChart, handleFilterChange_allData.
Qed.

Lemma handleFilterChange_after sels : forall sel st,
  handleFilterChange sel (after_selections sels st) = handleFilterChange sel st.
Proof.
  unfold after_selections.
  induction sels as [|s sels IH]; intros sel st; simpl; [reflexivity|].
  now rewrite IH, handleFilterChange_twice.
Qed.

Lemma updatedDataset_no_filter dataset : updatedDataset no_filter dataset = dataset.
Proof. destruct dataset. reflexivity. Qed.

Lemma handleFilterChange_no_filter_init document :
  handleFilterChange no_filter (init document) = init document.
Proof.
  apply AppState_ext.
  - now rewrite handleFilterChange_allData.
  - rewrite handleFilterChange_chartInstances. apply nth_error_ext. intros i.
    rewrite filterLoop_fst_nth, Nat.sub_0_r. change (0 <=? i)%nat with true.
    unfold init. cbv zeta. cbn [allData chartInstances]. rewrite nth_error_map.
    destruct (nth_error (datasets document) i) as [d|]; cbn [option_map];
      [|reflexivity].
    now rewrite updatedDataset_no_filter.
  - rewrite handleFilterChange_summaryChart.
    rewrite (map_ext _ (fun d => d) updatedDataset_no_filter), map_id. reflexivity.
  - rewrite handleFilterChange_aggregateChart.
    rewrite (map_ext _ (fun d => d) updatedDataset_no_filter), map_id. reflexivity.
Qed.
End HistoryFacts.

(** X11.  After [init], what the charts show depends on the last selection
    only, not on the selections made before it; and putting the three
    selectors back to "all" restores the charts of [init]. *)
Theorem view_depends_on_last_selection_only {host : Host} document sels sel :
  after_selections (sels ++ [sel]) (init document)
  = handleFilterChange sel (init document)
  /\ after_selections (sels ++ [no_filter]) (init document) = init document.
Proof.
  assert (H : forall s, after_selections (sels ++ [s]) (init document)
                        = handleFilterChange s (init document)).
  { intros s. unfold after_selections. rewrite fold_left_app. simpl.
    apply handleFilterChange_after. }
  split; [apply H|]. rewrite H. apply handleFilterChange_no_filter_init.
Qed.

(* ------------------------------------------------------------------ *)
(** ** More on the aggregator *)

Lemma normalizeDataset_dates dataset :
  map Norm.x (Norm.data (normalizeDataset dataset)) = map date (data dataset).
Proof.
  destruct (data dataset) as [|p ps] eqn:E.
  - unfold normalizeDataset. now rewrite E.
  - rewrite (normalizeDataset_cons _ _ _ E). cbn [Norm.data]. now rewrite map_map.
Qed.

(** X15.  The aggregate series has no more points than the series have
    together, and it is empty exactly when they have none. *)
Theorem aggregate_is_empty_iff_no_point {host : Host} nds :
  (List.length (createAggregateData nds) <= List.length (all_points nds))%nat
  /\ (createAggregateData nds = [] <-> all_points nds = []).
Proof.
  split.
  - rewrite <- (length_map Agg.x), <- (length_map Norm.x (all_points nds)).
    apply NoDup_incl_length; [apply createAggregateData_NoDup|].
    intros k Hk. now apply createAggregateData_dates.
  - split; intros E.
    + destruct (all_points nds) as [|p pts] eqn:Ep; [reflexivity|].
      assert (H : In (Norm.x p) (map Agg.x (createAggregateData nds))).
      { apply createAggregateData_dates. rewrite Ep. now left. }
      rewrite E in H. destruct H.
    + destruct (createAggregateData nds) as [|a out] eqn:Ea; [reflexivity|].
      assert (H : In (Agg.x a) (map Norm.x (all_points nds))).
      { apply createAggregateData_dates. rewrite Ea. now left. }
      rewrite E in H. destruct H.
Qed.

Lemma StronglySorted_map {A B} (R : B -> B -> Prop) (f : A -> B) l :
  StronglySorted (fun a b => R (f a) (f b)) l -> StronglySorted R (map f l).
Proof.
  induction 1 as [|a l Hs IH Hall]; simpl; constructor; [exact IH|].
  rewrite Forall_forall in Hall |- *. intros b Hb.
  apply in_map_iff in Hb as (c & <- & Hc). now apply Hall.
Qed.

(** Two arrangements of the same strings, one in a strict order and the
    other in an order that never reverses it, are the same list. *)
Lemma sorted_arrangement_unique (R R' : string -> string -> Prop) l : forall l',
  (forall a b, R a b -> R' b a -> False) ->
  StronglySorted R l -> StronglySorted R' l' -> Permutation l l' -> l = l'.
Proof.
  induction l as [|a l IH]; intros l' Hrev Hs Hs' Hperm.
  - apply Permutation_nil in Hperm. now subst.
  - destruct l' as [|b l'];
      [apply Permutation_sym, Permutation_nil in Hperm; discriminate|].
    inversion Hs as [|? ? Hs1 Hall]; subst.
    inversion Hs' as [|? ? Hs1' Hall']; subst.
    rewrite Forall_forall in Hall, Hall'.
    destruct (string_dec a b) as [->|N].
    + f_equal. apply IH; auto. now apply Permutation_cons_inv in Hperm.
    + exfalso.
      assert (Ha : In a (b :: l')) by (eapply Permutation_in; [exact Hperm | now left]).
      assert (Hb : In b (a :: l))
        by (eapply Permutation_in; [symmetry; exact Hperm | now left]).
      destruct Ha as [->|Ha]; [now apply N|].
      destruct Hb as [->|Hb]; [now apply N|].
      apply (Hrev a b); auto.
Qed.

Lemma Forall2_of_equal_keys {A B} (f : A -> string) (g : B -> string)
      (P : A -> B -> Prop) l : forall l',
  map f l = map g l' ->
  (forall a b, In a l -> In b l' -> f a = g b -> P a b) ->
  Forall2 P l l'.
Proof.
  induction l as [|a l IH]; intros [|b l'] E H; try discriminate; constructor.
  - injection E as E0 _. apply H; [now left | now left | exact E0].
  - injection E as _ E1. apply IH; [exact E1|].
    intros a' b' Ha Hb. apply H; now right.
Qed.

Section OneSeries.
Context {host : Host}.

Lemma createAggregateData_sorted nds :
  (forall p, In p (all_points nds) -> Date_new (Norm.x p) <> None) ->
  StronglySorted chronological (createAggregateData nds).
Proof.
  intros Hvalid.
  assert (Hdates : forall pt, In pt (createAggregateData nds) ->
                              Date_new (Agg.x pt) <> None).
  { intros pt Hin. apply (in_map Agg.x) in Hin.
    apply createAggregateData_dates, in_map_iff in Hin as (p & <- & Hp). auto. }
  set (key := fun pt => match Date_new (Agg.x pt) with Some t => t | None => 0 end).
  apply (StronglySorted_weaken (fun u v => key u <= key v)).
  - intros a b Ha Hb. unfold key, chronological.
    destruct (Date_new (Agg.x a)) eqn:Ea; [|now apply Hdates in Ha].
    destruct (Date_new (Agg.x b)) eqn:Eb; [|now apply Hdates in Hb].
    auto.
  - unfold createAggregateData. apply Array_sort_sorted. intros a b Ha Hb.
    assert (Hin : forall pt,
               In pt (map (fun e => {| Agg.x := fst e; Agg.y := snd e |})
                          (Object_entries (fillDateMap nds))) ->
               In pt (createAggregateData nds)).
    { intros pt H. unfold createAggregateData.
      apply (Permutation_in _ (Permutation_sym (Array_sort_perm _ _))). exact H. }
    apply Hin, Hdates in Ha. apply Hin, Hdates in Hb. unfold key.
    destruct (Date_new (Agg.x a)); [|congruence].
    destruct (Date_new (Agg.x b)); [|congruence].
    reflexivity.
Qed.

Lemma strictly_earlier_NoDup l : StronglySorted strictly_earlier l -> NoDup l.
Proof.
  induction 1 as [|a l Hs IH Hall]; constructor; [|exact IH].
  intros Hin. rewrite Forall_forall in Hall. specialize (Hall a Hin).
  unfold strictly_earlier in Hall. destruct (Date_new a); [lia | exact Hall].
Qed.
End OneSeries.

(** X17.  The aggregate of a single series whose dates are valid and in
    strictly ascending order is that series: the same dates in the same
    order, each with the normalised value of its point. *)
Theorem aggregate_of_one_series_is_the_series {host : Host} s :
  (forall p, In p (Norm.data s) -> Date_new (Norm.x p) <> None) ->
  StronglySorted strictly_earlier (map Norm.x (Norm.data s)) ->
  Forall2 (fun p a => Agg.x a = Norm.x p /\ (Agg.y a == Norm.y p)%Q)
          (Norm.data s) (createAggregateData [s]).
Proof.
  intros Hvalid Hsorted.
  assert (Epts : all_points [s] = Norm.data s)
    by (unfold all_points; simpl; apply app_nil_r).
  assert (Hnd : NoDup (map Norm.x (Norm.data s))) by now apply strictly_earlier_NoDup.
  assert (Ekeys : map Norm.x (Norm.data s) = map Agg.x (createAggregateData [s])).
  { apply (sorted_arrangement_unique
             strictly_earlier
             (fun a b => match Date_new a, Date_new b with
                         | Some ta, Some tb => ta <= tb
                         | _, _ => False
                         end)).
    - intros a b. unfold strictly_earlier.
      destruct (Date_new a), (Date_new b); try tauto. lia.
    - exact Hsorted.
    - apply StronglySorted_map. apply createAggregateData_sorted.
      rewrite Epts. exact Hvalid.
    - apply NoDup_Permutation; [exact Hnd | apply createAggregateData_NoDup|].
      intros k. rewrite createAggregateData_dates, Epts. tauto. }
  apply (Forall2_of_equal_keys Norm.x Agg.x); [exact Ekeys|].
  intros p a Hp Ha E. split; [now symmetry|].
  rewrite (createAggregateData_value _ _ Ha), Epts, <- E.
  now apply sum_on_unique.
Qed.

(** X18.  After a filter change the aggregate chart has a point on a date
    exactly when some series has a point on that date that the filter
    keeps, and it has one point only on each such date. *)
Theorem aggregate_chart_shows_the_kept_dates {host : Host} sel st :
  NoDup (map Agg.x (aggregateChart (handleFilterChange sel st)))
  /\ forall k,
       In k (map Agg.x (aggregateChart (handleFilterChange sel st))) <->
       exists dataset point,
         In dataset (datasets (allData st))
         /\ In point (filterData sel dataset) /\ date point = k.
Proof.
  rewrite handleFilterChange_aggregateChart.
  split; [apply createAggregateData_NoDup|].
  intros k. rewrite createAggregateData_dates, in_map_iff. split.
  - intros (npt & E & Hn). apply in_all_points in Hn as (s & Hs & Hn).
    unfold normalizeAndFormatData in Hs. apply in_map_iff in Hs as (u & <- & Hu).
    apply in_map_iff in Hu as (d & <- & Hd).
    apply (in_map Norm.x) in Hn. rewrite normalizeDataset_dates in Hn.
    cbn [updatedDataset data] in Hn.
    apply in_map_iff in Hn as (point & Ep & Hp).
    exists d, point. repeat split; auto. congruence.
  - intros (d & point & Hd & Hp & E).
    assert (Hx : In k (map Norm.x (Norm.data (normalizeDataset (updatedDataset sel d))))).
    { rewrite normalizeDataset_dates. cbn [updatedDataset data].
      rewrite <- E. now apply in_map. }
    apply in_map_iff in Hx as (npt & En & Hn).
    exists npt. split; [exact En|]. apply in_all_points.
    exists (normalizeDataset (updatedDataset sel d)). split; [|exact Hn].
    unfold normalizeAndFormatData. now apply in_map, in_map.
Qed.

(* ------------------------------------------------------------------ *)
(** ** These properties on the series of the specification *)

Section MoreOnUTC.
#[local] Existing Instance utc_host.

(** Year 2023 selected: the three points stay; year 2024: none does. *)
Lemma year_filter_witness :
  filterData {| selectedYear := "2023"; selectedQuarter := "all"; selectedMonth := "all" |}
             scenario_series
  = data scenario_series
  /\ filterData {| selectedYear := "2024"; selectedQuarter := "all"; selectedMonth := "all" |}
                scenario_series
     = [].
Proof.
  split.
  - rewrite (proj1 (proj2 (year_filter_keeps_the_year
               {| selectedYear := "2023"; selectedQuarter := "all"; selectedMonth := "all" |}
               scenario_series (Some 2023) eq_refl)) eq_refl eq_refl).
    reflexivity.
  - rewrite (proj1 (proj2 (year_filter_keeps_the_year
               {| selectedYear := "2024"; selectedQuarter := "all"; selectedMonth := "all" |}
               scenario_series (Some 2024) eq_refl)) eq_refl eq_refl).
    reflexivity.
Defined.

Lemma quarter_and_months_outside_it_witness :
  filterData {| selectedYear := "all"; selectedQuarter := "1"; selectedMonth := "5-6" |}
             scenario_series
  = [].
Proof.
  apply (quarter_and_months_outside_it_keep_nothing
           {| selectedYear := "all"; selectedQuarter := "1"; selectedMonth := "5-6" |}
           scenario_series 1 5 6); try lia; try reflexivity; discriminate.
Defined.

Lemma invalid_date_point_witness :
  Date_new (date damaged_point) = None
  /\ ~ In damaged_point
        (filterData {| selectedYear := "all"; selectedQuarter := "all";
                       selectedMonth := "0-1" |} damaged_series).
Proof.
  assert (Hbad : Date_new (date damaged_point) = None) by reflexivity.
  split; [exact Hbad|].
  apply (proj1 (invalid_date_point_is_filtered_out
                  {| selectedYear := "all"; selectedQuarter := "all";
                     selectedMonth := "0-1" |} damaged_series damaged_point Hbad)).
  discriminate.
Defined.

Lemma year_selector_witness :
  StronglySorted (fun a b => match a, b with
                             | Some m, Some n => n < m
                             | _, _ => False
                             end)
                 (sortedYears [scenario_series; far_series]).
Proof.
  apply (proj2 (proj2 (proj2 (year_selector_offers_the_years_of_the_data
                                [scenario_series; far_series] [])))).
  intros dataset point [<-|[<-|[]]] Hp; simpl in Hp;
    repeat (destruct Hp as [<-|Hp]; [discriminate|]); destruct Hp.
Defined.

Lemma offered_year_witness :
  In (Some 10000) (sortedYears [scenario_series; far_series])
  /\ exists dataset,
       In dataset [scenario_series; far_series]
       /\ filterData {| selectedYear := "10000"; selectedQuarter := "all";
                        selectedMonth := "all" |} dataset
          <> [].
Proof.
  assert (Hin : In (Some 10000) (sortedYears [scenario_series; far_series]))
    by (now left).
  split; [exact Hin|].
  exact (proj1 (offered_year_keeps_a_point [scenario_series; far_series] 10000) Hin).
Defined.

Lemma handler_updates_each_chart_witness :
  let sel := {| selectedYear := "all"; selectedQuarter := "2"; selectedMonth := "all" |} in
  nth_error (chartInstances (handleFilterChange sel (init loaded_document))) 0
  = Some (formatDatasetsForChart [updatedDataset sel scenario_series]).
Proof.
  apply (proj1 (proj2 (handler_updates_each_chart
                         {| selectedYear := "all"; selectedQuarter := "2";
                            selectedMonth := "all" |}
                         (init loaded_document)))
               0%nat scenario_series (formatDatasetsForChart [scenario_series])
               eq_refl eq_refl).
Defined.

Lemma aggregate_of_one_series_witness :
  Forall2 (fun p a => Agg.x a = Norm.x p /\ (Agg.y a == Norm.y p)%Q)
          (Norm.data (normalizeDataset scenario_series))
          (createAggregateData [normalizeDataset scenario_series]).
Proof.
  apply (aggregate_of_one_series_is_the_series (normalizeDataset scenario_series)).
  - intros p Hp. simpl in Hp.
    repeat (destruct Hp as [<-|Hp]; [discriminate|]). destruct Hp.
  - repeat constructor.
Defined.
End MoreOnUTC.

Lemma annotations_follow_events_witness :
  exists a,
    nth_error (generateAnnotations launch_events) 3 = Some a
    /\ Annotation.type a = "box"
    /\ Annotation.xMin a = "2023-06-01"
    /\ Annotation.xMax a = "2023-06-30"
    /\ Annotation.content (Annotation.label a) = "Mainnet"
    /\ Annotation.yAdjust (Annotation.label a) = 12 * 3.
Proof.
  apply (proj2 (annotations_follow_events launch_events) 3%nat
               {| Event.label := "Mainnet"; Event.startDate := "2023-06-01";
                  Event.endDate := "2023-06-30" |}).
  reflexivity.
Defined.

Lemma annotation_colors_cycle_witness :
  exists a b,
    nth_error (generateAnnotations launch_events) 0 = Some a
    /\ nth_error (generateAnnotations launch_events) 6 = Some b
    /\ Annotation.backgroundColor a = Annotation.backgroundColor b.
Proof.
  eexists. eexists. split; [reflexivity|]. split; [reflexivity|].
  apply (proj1 (annotation_colors_cycle launch_events 0 6 _ _ eq_refl eq_refl)).
  reflexivity.
Defined.

(** The colour of the scenario's series, "rgba(0, 123, 255, 1)", loses its
    closing parenthesis. *)
Lemma chart_series_colours_witness :
  map Raw.backgroundColor (formatDatasetsForChart [scenario_series])
  = ["rgba(0, 123, 255, 0.2"].
Proof.
  pose proof (chart_series_colours_and_points [scenario_series]) as H.
  destruct (formatDatasetsForChart [scenario_series]) as [|series rest] eqn:E;
    [discriminate|].
  injection E as <- <-.
  apply Forall2_cons_iff in H as [(_ & _ & _ & Hbg & _) _].
  cbn [map]. rewrite (Hbg "rgba(0, 123, 255, " "" eq_refl eq_refl). reflexivity.
Defined.

(* ------------------------------------------------------------------ *)
(** ** Binary64 numbers *)








(* ------------------------------------------------------------------ *)
(** ** The normaliser on binary64 numbers *)

(** On the scenario of the specification rounding does not show: 10, 30,
    20 become 0, 100, 50. *)
Example scenario_normalized_binary64 :
  map B64.Norm.y (B64.Norm.data (B64.normalizeDataset B64.scenario_series))
  = [0; 100; 50]%float.
Proof. vm_compute. reflexivity. Qed.

(** C1.  The values -1.7e308, 0, 1.7e308 are finite and not all equal, but
    their range [max - min] overflows to Infinity: the code normalises them
    to 0, 0 and [NaN], where 0, 50 and 100 are due. *)
Theorem normalization_overflows_on_wide_series :
  let values := map B64.value (B64.data B64.wide_series) in
  forallb is_finite values = true
  /\ (B64.Math_min values <? B64.Math_max values)%float = true
  /\ (B64.Math_max values - B64.Math_min values)%float = infinity
  /\ map B64.Norm.y (B64.Norm.data (B64.normalizeDataset B64.wide_series))
     = [0%float; 0%float; nan].
Proof. vm_compute. repeat split; reflexivity. Qed.

(* ------------------------------------------------------------------ *)
(** ** The aggregator on binary64 numbers *)

Section B64Facts.
Import B64.













Section B64Aggregate.
Context {host : Host}.








End B64Aggregate.




End B64Facts.
